(** * EcoGuardianAI: the rolling-window anomaly detector of [Problem1.py]

    A shallow embedding of [push_sample] and [check_anomaly] together with
    the properties of the window store and of the z-score evaluator,
    followed by the threshold monitor of [mock_monitor.py]: incident
    reports, the evaluation of a data frame, the simulated readings and
    the counters of the monitoring loop.

    - Python floats are IEEE 754 binary64 values: they are modelled by Rocq's
      primitive [float], whose operations are the same binary64 operations.
    - The module-level dict [buffers] is a [gmap] from (roomId, metric) to
      the deque of samples, front of the deque at the head of the list.
    - A [datetime] is the number of microseconds since [datetime.min];
      [timedelta] arithmetic is integer arithmetic on that count.
    - Exceptions are values: a computation returns [Return v] or [Raise e],
      and a mutation made before the exception stays in the state. *)

From Stdlib Require Import ZArith Floats Uint63 Lia.
From stdpp Require Import base option list sorting gmap strings pretty.

Set Warnings "-inexact-float".
Local Open Scope Z_scope.

(** ** Exceptions, pure and stateful computations *)

Inductive exn : Type :=
  | OverflowError
  | ValueError
  | ZeroDivisionError.

Inductive outcome (A : Type) : Type :=
  | Return (a : A)
  | Raise (e : exn).
Arguments Return {A} a.
Arguments Raise {A} e.

Definition obind {A B : Type} (m : outcome A) (k : A → outcome B) : outcome B :=
  match m with
  | Return a => k a
  | Raise e => Raise e
  end.

Notation "'let!' x ':=' m 'in' k" := (obind m (fun x => k))
  (at level 10, x name, m at level 100, k at level 200).

Definition to_option {A : Type} (o : outcome A) : option A :=
  match o with
  | Return a => Some a
  | Raise _ => None
  end.

(** ** Data model *)

(** Microseconds since 0001-01-01T00:00:00, the resolution of [datetime]. *)
Abbreviation datetime := Z (only parsing).

(** One element of a deque: the tuple [(ts, value)]. *)
Abbreviation sample := (Z * float)%type (only parsing).

(** The dict key [(roomId, metric)]. *)
Abbreviation key := (string * string)%type (only parsing).

(** The dict literal built when an anomaly is detected.  [tsStart] and
    [tsEnd] hold the datetimes whose [isoformat()] the code stores. *)
Record anomaly : Type := mkAnomaly {
  id : string;
  roomId : string;
  tsStart : datetime;
  tsEnd : datetime;
  metric : string;
  value : float;
  z : float;
  reason : string
}.

(** The mutable world: the global [buffers] and what the sink received. *)
Record world : Type := mkWorld {
  buffers : gmap key (list sample);
  sink : list anomaly
}.

Definition set_buffers (w : world) (b : gmap key (list sample)) : world :=
  {| buffers := b; sink := sink w |}.

(** Stateful computations: the final world is returned also on [Raise]. *)
Definition M (A : Type) : Type := world → outcome A * world.

Definition mret {A : Type} (a : A) : M A := fun w => (Return a, w).

Definition mbind {A B : Type} (m : M A) (k : A → M B) : M B :=
  fun w =>
    match m w with
    | (Return a, w') => k a w'
    | (Raise e, w') => (Raise e, w')
    end.

Notation "'run!' x ':=' m 'in' k" := (mbind m (fun x => k))
  (at level 10, x name, m at level 100, k at level 200).

(** ** Constants of the module *)

Definition W_SECONDS : Z := 30 * 60.
Definition Z_THRESHOLD : float := 2.5%float.
Definition EPS : float := 1e-9%float.

(** [timedelta(seconds=s)] in microseconds. *)
Definition timedelta_seconds (s : Z) : Z := s * 1000000.

(** The operand [timedelta(seconds=W_SECONDS)] of the cutoff. *)
Definition window_duration : Z := timedelta_seconds W_SECONDS.

(** [ts - delta] on datetimes: a result before [datetime.min] raises
    [OverflowError] ("date value out of range"). *)
Definition datetime_sub (ts : datetime) (delta : Z) : outcome datetime :=
  if ts - delta <? 0 then Raise OverflowError else Return (ts - delta).

(** ** Float primitives as Python applies them *)

(** [float(n)] for the int [n = len(vals)] that divides a float. *)
Definition float_of_int (n : Z) : float := PrimFloat.of_uint63 (Uint63.of_Z n).

(** [sum(xs)]: the accumulator starts at int 0, becomes [0.0] at the first
    float and the items are added from left to right.  This is the loop of
    CPython up to 3.11; CPython 3.12 and later add a compensation term to
    it, which is zero whenever the additions are exact, as they are on the
    windows of integers evaluated below. *)
Definition sum (xs : list float) : float :=
  fold_left PrimFloat.add xs 0%float.

(** [x ** 2] ([float_pow] with exponent 2): NaN and infinities pass through,
    a finite base whose square overflows raises [OverflowError].  The C
    library's [pow] computes the square; it is taken to be the correctly
    rounded product, which it is whenever [x * x] is exact (a [pow] that
    is off in the last bit elsewhere is not modelled). *)
Definition pow2 (x : float) : outcome float :=
  if PrimFloat.is_nan x then Return x
  else if PrimFloat.is_infinity x then Return PrimFloat.infinity
  else
    let r := (x * x)%float in
    if PrimFloat.is_infinity r then Raise OverflowError else Return r.

(** [math.sqrt(x)]: a negative argument raises [ValueError]. *)
Definition math_sqrt (x : float) : outcome float :=
  if (x <? 0)%float then Raise ValueError else Return (PrimFloat.sqrt x).

(** [x / y] on floats: a zero divisor raises [ZeroDivisionError]. *)
Definition truediv (x y : float) : outcome float :=
  if (y =? 0)%float then Raise ZeroDivisionError else Return (x / y)%float.

(** [sum((v-mu)**2 for v in vals)]: the generator is consumed left to
    right, the first overflowing square aborts the sum. *)
Fixpoint sum_sq_dev (mu : float) (vals : list float) (acc : float) : outcome float :=
  match vals with
  | [] => Return acc
  | v :: rest =>
      let! q := pow2 (v - mu)%float in
      sum_sq_dev mu rest (acc + q)%float
  end.

(** ** The evaluator's arithmetic, on the value sequence [vals] *)

(** The locals of [check_anomaly] once the score is computed. *)
Record stats : Type := mkStats {
  st_mu : float;
  st_sigma : float;
  st_latest : float;
  st_z : float
}.

(** [vals[-1]]; the default is never used on a non-empty list. *)
Definition latest_of (vals : list float) : float := List.last vals 0%float.

(** Lines [n = len(vals)] to [z = (latest - mu) / (sigma + EPS)]. *)
Definition window_stats (vals : list float) : outcome stats :=
  let n := float_of_int (Z.of_nat (length vals)) in
  let! mu := truediv (sum vals) n in
  let! s := sum_sq_dev mu vals 0%float in
  let! var := truediv s n in
  let! sigma := math_sqrt var in
  let latest := latest_of vals in
  let! zs := truediv (latest - mu)%float (sigma + EPS)%float in
  Return {| st_mu := mu; st_sigma := sigma; st_latest := latest; st_z := zs |}.

(** The test [abs(z) > Z_THRESHOLD]. *)
Definition exceeds_threshold (zs : float) : bool :=
  (Z_THRESHOLD <? PrimFloat.abs zs)%float.

(** ** The window store *)

(** The [while buf and buf[0][0] < cutoff: buf.popleft()] loop. *)
Fixpoint purge (cutoff : datetime) (buf : list sample) : list sample :=
  match buf with
  | [] => []
  | s :: rest => if s.1 <? cutoff then purge cutoff rest else buf
  end.

(** Modelled from the spec: [write_anomaly] is called by [check_anomaly]
    but defined nowhere in the repository (the call carries the comment
    "implement Cosmos upsert").  The spec describes it as the external
    anomaly sink that stores the record: it is modelled as an append to
    the world's [sink], for a sink that accepts the record.  A sink that
    raises is not modelled: [check_anomaly] has no handler around the
    call, so its exception would replace the returned record. *)
Definition write_anomaly (a : anomaly) : M unit :=
  fun w => (Return tt, {| buffers := buffers w; sink := sink w ++ [a] |}).

(** The identifier.  [now] is the integer
    [int(datetime.utcnow().timestamp())], an input of the model: [utcnow()]
    is a naive datetime that [timestamp()] reads as local time, so the
    integer is not the epoch second of the UTC clock and two instants may
    share it. *)
Definition anomaly_id (room met : string) (now : Z) : string :=
  "anom-" +:+ room +:+ "-" +:+ met +:+ "-" +:+ pretty now.

Definition first_ts (buf : list sample) : datetime :=
  match buf with
  | [] => 0
  | s :: _ => s.1
  end.

Definition last_ts (buf : list sample) : datetime :=
  (List.last buf (0, 0%float)).1.

Definition check_anomaly (now : Z) (room met : string) : M (option anomaly) :=
  fun w =>
    match buffers w !! (room, met) with
    | None => (Return None, w)
    | Some buf =>
        if (length buf <? 3)%nat then (Return None, w)
        else
          match window_stats (map snd buf) with
          | Raise e => (Raise e, w)
          | Return st =>
              if exceeds_threshold (st_z st) then
                let a := {| id := anomaly_id room met now;
                            roomId := room;
                            tsStart := first_ts buf;
                            tsEnd := last_ts buf;
                            metric := met;
                            value := st_latest st;
                            z := st_z st;
                            reason := "rolling-z" |} in
                (run! u := write_anomaly a in mret (Some a)) w
              else (Return None, w)
          end
    end.

(** [buf = buffers.setdefault(key, deque())] and [buf.append((ts, value))]:
    a missing key starts from an empty deque. *)
Definition append_sample (k : key) (ts : datetime) (v : float) : M unit :=
  fun w =>
    let buf := default [] (buffers w !! k) in
    (Return tt, set_buffers w (<[k := buf ++ [(ts, v)]]> (buffers w))).

(** The purge loop run on the deque of [k]. *)
Definition purge_old (k : key) (cutoff : datetime) : M unit :=
  fun w =>
    let buf := default [] (buffers w !! k) in
    (Return tt, set_buffers w (<[k := purge cutoff buf]> (buffers w))).

(** A pure computation that may raise, inside the stateful ones. *)
Definition lift {A : Type} (o : outcome A) : M A := fun w => (o, w).

Definition push_sample (now : Z) (room met : string) (ts : datetime) (v : float)
  : M (option anomaly) :=
  let k := (room, met) in
  run! u := append_sample k ts v in
  run! cutoff := lift (datetime_sub ts window_duration) in
  run! u := purge_old k cutoff in
  check_anomaly now room met.

(** A caller that ingests a stream for one key, one call per reading
    [(now, ts, value)], and goes on after a call that raised. *)
Definition ingest_all (room met : string) (l : list (Z * datetime * float))
    (w : world) : world :=
  fold_left (fun w r => (push_sample r.1.1 room met r.1.2 r.2 w).2) l w.

(** The empty store of a fresh process. *)
Definition fresh : world := {| buffers := ∅; sink := [] |}.

(** The deque of [k] with the new sample at its end. *)
Definition appended (w : world) (k : key) (ts : datetime) (v : float) : list sample :=
  default [] (buffers w !! k) ++ [(ts, v)].

(** The deque a call leaves behind: purged when the cutoff exists, only
    appended to when computing the cutoff raised. *)
Definition window_after (ts : datetime) (buf : list sample) : list sample :=
  match datetime_sub ts window_duration with
  | Return cutoff => purge cutoff buf
  | Raise _ => buf
  end.

(** ** Vocabulary of the statements *)

(** The samples [(ts, value)] of a stream of readings [(now, ts, value)]. *)
Definition readings_samples (l : list (Z * Z * float)) : list (Z * float) :=
  (λ r, (r.1.2, r.2)) <$> l.

(** The samples of [l] inside the trailing window that ends at [latest]. *)
Definition in_window (latest : datetime) (l : list (Z * float)) : list (Z * float) :=
  filter (λ s, latest - window_duration ≤ s.1) l.

(** Samples in arrival order with non-decreasing timestamps. *)
Definition time_ordered (l : list (Z * float)) : Prop :=
  Sorted Z.le (l.*1).

(** Ordering of samples by timestamp. *)
Definition ts_le (a b : Z * float) : Prop := a.1 ≤ b.1.

(** A timestamp in whole seconds. *)
Definition sec (n : Z) : datetime := n * 1000000.

(** A store in which room B already reported one reading. *)
Definition room_b_only : world :=
  ingest_all "B" "co2" [(0, sec 5000, 400%float)] fresh.

(** A stream whose second reading arrives out of order. *)
Definition late_arrival : list (Z * Z * float) :=
  [(0, sec 5000, 1%float); (0, sec 1000, 2%float)].

(** A stream that jumps ahead and then falls back. *)
Definition jump_and_back : list (Z * Z * float) :=
  [(0, sec 1000, 1%float); (0, sec 9000, 2%float); (0, sec 2000, 3%float)].

(** Seven steady readings and a spike, one second apart. *)
Definition spike_stream : list (Z * Z * float) :=
  [(0, sec 5000, 10%float); (0, sec 5001, 10%float); (0, sec 5002, 10%float);
   (0, sec 5003, 10%float); (0, sec 5004, 10%float); (0, sec 5005, 10%float);
   (0, sec 5006, 10%float); (0, sec 5007, 100%float)].

(** The store after that stream; its sink already holds one record. *)
Definition spiked : world := ingest_all "A" "co2" spike_stream fresh.

(** Three steady readings, to be followed by the reading 100. *)
Definition threshold_stream : list (Z * Z * float) :=
  [(0, sec 5000, 10%float); (0, sec 5001, 10%float); (0, sec 5002, 10%float)].

(** The mean as [check_anomaly] computes it. *)
Definition window_mean (vals : list float) : outcome float :=
  truediv (sum vals) (float_of_int (Z.of_nat (length vals))).

(** The record built from a window and its statistics. *)
Definition record_of (now : Z) (room met : string) (buf : list (Z * float))
    (st : stats) : anomaly :=
  {| id := anomaly_id room met now;
     roomId := room;
     tsStart := first_ts buf;
     tsEnd := last_ts buf;
     metric := met;
     value := st_latest st;
     z := st_z st;
     reason := "rolling-z" |}.

(** The statistics of the window left by [spike_stream]. *)
Definition spike_stats : stats :=
  {| st_mu := 21.25; st_sigma := 29.764702249476645;
     st_latest := 100; st_z := 2.6457513109757014 |}.

(** Three readings of one tenth. *)
Definition tenth_stream : list (Z * Z * float) :=
  [(0, sec 5000, 0.1%float); (0, sec 5001, 0.1%float); (0, sec 5002, 0.1%float)].

(** * The threshold monitor of [mock_monitor.py] *)

Module Monitor.

(** The four measured columns, the [field] strings the callers pass. *)
Inductive field : Type := Co2 | Humidity | Temperature | Pm2_5.

Definition field_name (f : field) : string :=
  match f with
  | Co2 => "co2"
  | Humidity => "humidity"
  | Temperature => "temperature"
  | Pm2_5 => "pm2_5"
  end.

(** The dict [new_reading], which is also one row of the DataFrame.  The
    [timestamp] is the datetime that [isoformat()] prints and that
    [pd.to_datetime] reads back; a level that Python holds as an int is
    carried as the float of the same value. *)
Record reading : Type := mkReading {
  row_id : Z;
  row_roomId : string;
  row_timestamp : datetime;
  row_co2 : float;
  row_humidity : float;
  row_temperature : float;
  row_pm2_5 : float
}.

(** [row[field]] *)
Definition get (row : reading) (f : field) : float :=
  match f with
  | Co2 => row_co2 row
  | Humidity => row_humidity row
  | Temperature => row_temperature row
  | Pm2_5 => row_pm2_5 row
  end.

(** The record returned by [generate_incident_report]. *)
Record incident : Type := mkIncident {
  id : string;
  roomId : string;
  timestamp : datetime;
  measurementType : string;
  value : float;
  qualityFlags : string;
  reason : string;
  severity : Z;
  severityText : string;
  ackBy : option string;
  ackTs : option string;
  windowStart : datetime;
  windowEnd : datetime
}.

(** What the monitor takes from Python and does not define: the hash of
    the printed row (salted per process) and the float formats [:.0f] and
    [:.1f] of the reason texts.  The print of a row also shows its index
    label and dtype, so [hash_str] stands for the hash of the rows of one
    data frame; another frame may need another function. *)
Record pylib : Type := mkPylib {
  hash_str : reading → Z;
  format_0f : float → string;
  format_1f : float → string
}.

(** [SEVERITY_SCALE.get(severity, "Unknown")] *)
Definition severity_text (sev : Z) : string :=
  if sev =? 0 then "Info (Normal)"
  else if sev =? 1 then "Warning"
  else if sev =? 2 then "Critical"
  else "Unknown".

(** [LAB_WINDOWS] *)
Definition co2_warning_high : Z := 1000.
Definition co2_critical_high : Z := 1500.
Definition humidity_warning_low : Z := 30.
Definition humidity_warning_high : Z := 60.
Definition temperature_warning_low : Z := 20.
Definition temperature_warning_high : Z := 24.
Definition pm2_5_warning_high : Z := 12.
Definition pm2_5_critical_high : Z := 35.

(** [x > n] and [x < n] for a float reading and an int limit. *)
Definition above (x : float) (n : Z) : bool := (float_of_int n <? x)%float.
Definition below (x : float) (n : Z) : bool := (x <? float_of_int n)%float.

(** [str.upper()] on ASCII text. *)
Definition upper_char (c : Ascii.ascii) : Ascii.ascii :=
  let n := Ascii.nat_of_ascii c in
  if ((97 <=? n) && (n <=? 122))%nat then Ascii.ascii_of_nat (n - 32) else c.

Fixpoint upper (s : string) : string :=
  match s with
  | EmptyString => EmptyString
  | String c s' => String (upper_char c) (upper s')
  end.

(** A number below 100 on two digits. *)
Definition two_digits (n : Z) : string :=
  if n <? 10 then "0" +:+ pretty n else pretty n.

(** [dt.strftime('%H%M%S')]: [datetime.min] is a midnight, so the time of
    day is the count of seconds modulo one day. *)
Definition strftime_HMS (dt : datetime) : string :=
  let secs := (dt / 1000000) mod 86400 in
  two_digits (secs / 3600) +:+ two_digits ((secs / 60) mod 60)
  +:+ two_digits (secs mod 60).

Definition generate_incident_report (E : pylib) (row : reading) (f : field)
    (sev : Z) (rsn : string) (window_end_dt : datetime) : outcome incident :=
  let window_end := window_end_dt in
  let! window_start := datetime_sub window_end (timedelta_seconds 10) in
  let anomaly_id :=
    "ANOMALY-" +:+ pretty (hash_str E row `mod` 10000) +:+ "-"
    +:+ strftime_HMS window_end in
  Return {| id := anomaly_id;
            roomId := row_roomId row;
            timestamp := window_end;
            measurementType := field_name f;
            value := get row f;
            qualityFlags := upper (field_name f) +:+ "_OUT_OF_RANGE";
            reason := rsn;
            severity := sev;
            severityText := severity_text sev;
            ackBy := None;
            ackTs := None;
            windowStart := window_start;
            windowEnd := window_end |}.

(** The four blocks of the loop body of
    [evaluate_sensor_data_for_anomalies], each giving the reports it
    appends. *)
Definition check_co2 (E : pylib) (row : reading) : outcome (list incident) :=
  let co2 := row_co2 row in
  let dt := row_timestamp row in
  if above co2 co2_critical_high then
    let rsn := "CO2 (" +:+ format_0f E co2 +:+ " ppm) exceeded critical limit of "
               +:+ pretty co2_critical_high +:+ " ppm." in
    let! r := generate_incident_report E row Co2 2 rsn dt in Return [r]
  else if above co2 co2_warning_high then
    let rsn := "CO2 (" +:+ format_0f E co2 +:+ " ppm) exceeded warning limit of "
               +:+ pretty co2_warning_high +:+ " ppm." in
    let! r := generate_incident_report E row Co2 1 rsn dt in Return [r]
  else Return [].

Definition check_humidity (E : pylib) (row : reading) : outcome (list incident) :=
  let humidity := row_humidity row in
  let dt := row_timestamp row in
  if below humidity humidity_warning_low then
    let rsn := "Humidity (" +:+ format_1f E humidity
               +:+ " %) dropped below low limit of "
               +:+ pretty humidity_warning_low +:+ "%." in
    let! r := generate_incident_report E row Humidity 1 rsn dt in Return [r]
  else if above humidity humidity_warning_high then
    let rsn := "Humidity (" +:+ format_1f E humidity
               +:+ " %) exceeded high limit of "
               +:+ pretty humidity_warning_high +:+ "%." in
    let! r := generate_incident_report E row Humidity 1 rsn dt in Return [r]
  else Return [].

Definition check_temperature (E : pylib) (row : reading) : outcome (list incident) :=
  let temperature := row_temperature row in
  let dt := row_timestamp row in
  if below temperature temperature_warning_low then
    let rsn := "Temperature (" +:+ format_1f E temperature
               +:+ "°C) dropped below low limit of "
               +:+ pretty temperature_warning_low +:+ "°C." in
    let! r := generate_incident_report E row Temperature 1 rsn dt in Return [r]
  else if above temperature temperature_warning_high then
    let rsn := "Temperature (" +:+ format_1f E temperature
               +:+ "°C) exceeded high limit of "
               +:+ pretty temperature_warning_high +:+ "°C." in
    let! r := generate_incident_report E row Temperature 1 rsn dt in Return [r]
  else Return [].

Definition check_pm2_5 (E : pylib) (row : reading) : outcome (list incident) :=
  let pm2_5 := row_pm2_5 row in
  let dt := row_timestamp row in
  if above pm2_5 pm2_5_critical_high then
    let rsn := "PM2.5 (" +:+ format_1f E pm2_5
               +:+ " μg/m³) exceeded critical limit of "
               +:+ pretty pm2_5_critical_high +:+ " μg/m³." in
    let! r := generate_incident_report E row Pm2_5 2 rsn dt in Return [r]
  else if above pm2_5 pm2_5_warning_high then
    let rsn := "PM2.5 (" +:+ format_1f E pm2_5
               +:+ " μg/m³) exceeded warning limit of "
               +:+ pretty pm2_5_warning_high +:+ " μg/m³." in
    let! r := generate_incident_report E row Pm2_5 1 rsn dt in Return [r]
  else Return [].

(** One turn of [for _, row in df.iterrows()]. *)
Definition check_row (E : pylib) (row : reading) : outcome (list incident) :=
  let! a := check_co2 E row in
  let! b := check_humidity E row in
  let! c := check_temperature E row in
  let! d := check_pm2_5 E row in
  Return (a ++ b ++ c ++ d).

(** [evaluate_sensor_data_for_anomalies(df)]: the DataFrame is the list of
    its rows, the result the list of the rows of the report DataFrame
    (the empty list for the empty [pd.DataFrame()]).  The rows are taken
    after [pd.to_datetime] and [to_pydatetime()] have read the timestamp
    column; the errors of that parse are not modelled. *)
Fixpoint evaluate_sensor_data_for_anomalies (E : pylib) (df : list reading)
  : outcome (list incident) :=
  match df with
  | [] => Return []
  | row :: rest =>
      let! a := check_row E row in
      let! b := evaluate_sensor_data_for_anomalies E rest in
      Return (a ++ b)
  end.

(** One entry of [BASE_READINGS]; the CO2 base is an int. *)
Record base : Type := mkBase {
  base_co2 : Z;
  base_humidity : float;
  base_temperature : float;
  base_pm2_5 : float
}.

Definition BASE_READINGS (room_id : string) : option base :=
  if decide (room_id = "Lab-A-205") then
    Some {| base_co2 := 600; base_humidity := 45.0; base_temperature := 21.5;
            base_pm2_5 := 7.0 |}
  else if decide (room_id = "Lab-B-101") then
    Some {| base_co2 := 750; base_humidity := 40.0; base_temperature := 22.0;
            base_pm2_5 := 9.0 |}
  else if decide (room_id = "Lab-C-302") then
    Some {| base_co2 := 680; base_humidity := 50.0; base_temperature := 20.5;
            base_pm2_5 := 6.5 |}
  else None.

Definition ROOM_IDS : list string := ["Lab-A-205"; "Lab-B-101"; "Lab-C-302"].

(** The values the [random] module returns during one call: the four
    [gauss(0, std_dev[...])] samples, [randint(0, 100)], [randint(0, 10)],
    [uniform(0, 1)] and [uniform(0, 5)]. *)
Record draws : Type := mkDraws {
  gauss_co2 : float;
  gauss_humidity : float;
  gauss_temperature : float;
  gauss_pm2_5 : float;
  randint_100 : Z;
  randint_10 : Z;
  uniform_1 : float;
  uniform_5 : float
}.

(** [max(0, x)] and [min(100, x)]: the first argument wins unless the
    second is strictly beyond it. *)
Definition max_0 (x : float) : float := if (0 <? x)%float then x else 0%float.
Definition min_100 (x : float) : float := if (x <? 100)%float then x else 100%float.

(** [simulate_sensor_reading(room_id, counter)]: [None] stands for the
    [KeyError] of an unknown room; the second component is the new value
    of the global [record_id_counter]. *)
Definition simulate_sensor_reading (d : draws) (now : datetime)
    (room_id : string) (counter : Z) : option (reading * Z) :=
  b ← BASE_READINGS room_id;
  let new_reading :=
    {| row_id := counter;
       row_roomId := room_id;
       row_timestamp := now;
       row_co2 := max_0 (float_of_int (base_co2 b) + gauss_co2 d);
       row_humidity := max_0 (min_100 (base_humidity b + gauss_humidity d));
       row_temperature := (base_temperature b + gauss_temperature d)%float;
       row_pm2_5 := max_0 (base_pm2_5 b + gauss_pm2_5 d) |} in
  let new_reading :=
    if counter `mod` 15 =? 0 then
      if decide (room_id = "Lab-B-101") then
        {| row_id := row_id new_reading;
           row_roomId := row_roomId new_reading;
           row_timestamp := row_timestamp new_reading;
           row_co2 := float_of_int (1650 + randint_100 d);
           row_humidity := row_humidity new_reading;
           row_temperature := row_temperature new_reading;
           row_pm2_5 := (45.0 + float_of_int (randint_10 d))%float |}
      else if decide (room_id = "Lab-C-302") then
        {| row_id := row_id new_reading;
           row_roomId := row_roomId new_reading;
           row_timestamp := row_timestamp new_reading;
           row_co2 := row_co2 new_reading;
           row_humidity := (20.0 - uniform_5 d)%float;
           row_temperature := (26.0 + uniform_1 d)%float;
           row_pm2_5 := row_pm2_5 new_reading |}
      else new_reading
    else new_reading in
  Some (new_reading, counter + 1).

(** The two counters of [start_realtime_monitoring_loop]. *)
Record loop_state : Type := mkLoop {
  current_room_index : Z;
  reading_count : Z
}.

Definition loop_start : loop_state :=
  {| current_room_index := 0; reading_count := 1 |}.

(** One turn of the [while True] loop without its printing and sleeping:
    the reading, its report and the counters of the next turn.  [None]
    stands for an exception that ends the loop. *)
Definition loop_iteration (E : pylib) (d : draws) (now : datetime)
    (st : loop_state) : option (reading * list incident * loop_state) :=
  room_id ← ROOM_IDS !! Z.to_nat (current_room_index st `mod` Z.of_nat (length ROOM_IDS));
  sim ← simulate_sensor_reading d now room_id (reading_count st);
  match evaluate_sensor_data_for_anomalies E [sim.1] with
  | Raise _ => None
  | Return anomaly_df =>
      Some (sim.1, anomaly_df,
            {| current_room_index := current_room_index st + 1;
               reading_count := reading_count st + 1 |})
  end.

(** The first turns of the loop, one per element of [inputs]. *)
Fixpoint run_loop (E : pylib) (inputs : list (draws * datetime)) (st : loop_state)
  : option (list (reading * list incident) * loop_state) :=
  match inputs with
  | [] => Some ([], st)
  | (d, now) :: rest =>
      it ← loop_iteration E d now st;
      r ← run_loop E rest it.2;
      Some ((it.1.1, it.1.2) :: r.1, r.2)
  end.

(** The reading of a report is beyond the limit its severity stands for. *)
Definition justified (i : incident) : Prop :=
  (measurementType i = "co2" ∧ severity i = 2
   ∧ above (value i) co2_critical_high = true)
  ∨ (measurementType i = "co2" ∧ severity i = 1
     ∧ above (value i) co2_warning_high = true
     ∧ above (value i) co2_critical_high = false)
  ∨ (measurementType i = "humidity" ∧ severity i = 1
     ∧ (below (value i) humidity_warning_low = true
        ∨ above (value i) humidity_warning_high = true))
  ∨ (measurementType i = "temperature" ∧ severity i = 1
     ∧ (below (value i) temperature_warning_low = true
        ∨ above (value i) temperature_warning_high = true))
  ∨ (measurementType i = "pm2_5" ∧ severity i = 2
     ∧ above (value i) pm2_5_critical_high = true)
  ∨ (measurementType i = "pm2_5" ∧ severity i = 1
     ∧ above (value i) pm2_5_warning_high = true
     ∧ above (value i) pm2_5_critical_high = false).

(** What every report of one row has in common with the others. *)
Definition row_stamp (E : pylib) (row : reading) (i : incident) : Prop :=
  id i = "ANOMALY-" +:+ pretty (hash_str E row `mod` 10000) +:+ "-"
         +:+ strftime_HMS (row_timestamp row)
  ∧ roomId i = row_roomId row
  ∧ timestamp i = row_timestamp row
  ∧ windowEnd i = row_timestamp row
  ∧ windowStart i = row_timestamp row - 10000000
  ∧ severityText i = severity_text (severity i)
  ∧ ackBy i = None ∧ ackTs i = None.

(** What one block of the loop body appends: nothing, or one report
    built for the field of the block. *)
Definition block_result (E : pylib) (row : reading) (f : field)
    (l : list incident) : Prop :=
  l = [] ∨ ∃ sev rsn r,
    l = [r]
    ∧ generate_incident_report E row f sev rsn (row_timestamp row) = Return r.

(** A reading inside every safe window, and a library for the examples. *)
Definition calm : reading :=
  {| row_id := 1; row_roomId := "Lab-A-205"; row_timestamp := sec 5000;
     row_co2 := 600; row_humidity := 45; row_temperature := 21.5;
     row_pm2_5 := 7 |}.

Definition stuffy : reading :=
  {| row_id := 2; row_roomId := "Lab-B-101"; row_timestamp := sec 5000;
     row_co2 := 1700; row_humidity := 65; row_temperature := 25;
     row_pm2_5 := 20 |}.

Definition some_pylib : pylib :=
  {| hash_str := λ _, -12345; format_0f := λ _, "?"; format_1f := λ _, "?" |}.

Definition no_draws : draws :=
  {| gauss_co2 := 0; gauss_humidity := 0; gauss_temperature := 0;
     gauss_pm2_5 := 0; randint_100 := 37; randint_10 := 4;
     uniform_1 := 0.5; uniform_5 := 2.5 |}.

End Monitor.

(** * Properties of the window store *)

Section Purge.
Variable cutoff : datetime.

Lemma purge_split (buf : list sample) :
  ∃ dropped, buf = dropped ++ purge cutoff buf
             ∧ Forall (λ s, s.1 < cutoff) dropped.
Proof.
  induction buf as [|s rest [dropped [Heq Hold]]]; simpl.
  - exists []. split; [reflexivity | constructor].
  - destruct (Z.ltb_spec s.1 cutoff) as [Hlt|Hge].
    + exists (s :: dropped). split.
      * simpl. congruence.
      * constructor; assumption.
    + exists []. split; [reflexivity | constructor].
Qed.

Lemma purge_suffix (buf : list sample) : purge cutoff buf `suffix_of` buf.
Proof. destruct (purge_split buf) as [dropped [Heq _]]. by exists dropped. Qed.

Lemma purge_all_old (buf rest : list sample) :
  Forall (λ s, s.1 < cutoff) buf → purge cutoff (buf ++ rest) = purge cutoff rest.
Proof.
  induction 1 as [|s buf Hs _ IH]; simpl; [reflexivity|].
  destruct (Z.ltb_spec s.1 cutoff); [assumption | lia].
Qed.

Lemma purge_head_fresh (s : sample) (rest : list sample) :
  cutoff ≤ s.1 → purge cutoff (s :: rest) = s :: rest.
Proof. intros H. simpl. destruct (Z.ltb_spec s.1 cutoff); [lia | reflexivity]. Qed.

(** A sample that is not older than the cutoff stops the loop: it and
    everything behind it stay, whatever lies ahead of it. *)
Lemma purge_keeps_from (pre post : list sample) (s : sample) :
  cutoff ≤ s.1 →
  ∃ kept, purge cutoff (pre ++ s :: post) = kept ++ s :: post
          ∧ kept `suffix_of` pre.
Proof.
  intros Hs. induction pre as [|p pre [kept [Heq Hsuf]]].
  - exists []. split; [by apply purge_head_fresh | done].
  - simpl. destruct (Z.ltb_spec p.1 cutoff).
    + exists kept. split; [assumption | by apply suffix_cons_r].
    + by exists (p :: pre).
Qed.

Lemma purge_fresh (buf : list sample) :
  Forall (λ s, cutoff ≤ s.1) buf → purge cutoff buf = buf.
Proof.
  destruct 1 as [|s buf Hs _]; [reflexivity | by apply purge_head_fresh].
Qed.
End Purge.

Lemma window_duration_val : window_duration = 1800000000.
Proof. reflexivity. Qed.

Lemma cutoff_value (ts cutoff : datetime) :
  datetime_sub ts window_duration = Return cutoff →
  cutoff = ts - window_duration.
Proof.
  unfold datetime_sub.
  destruct (Z.ltb_spec (ts - window_duration) 0); intros Hc; [discriminate|].
  by injection Hc as <-.
Qed.

Lemma cutoff_exists (ts : datetime) :
  window_duration ≤ ts →
  datetime_sub ts window_duration = Return (ts - window_duration).
Proof.
  intros Hts. unfold datetime_sub.
  destruct (Z.ltb_spec (ts - window_duration) 0); [lia | reflexivity].
Qed.

Lemma cutoff_raises (ts : datetime) :
  ts < window_duration →
  datetime_sub ts window_duration = Raise OverflowError.
Proof.
  intros Hts. unfold datetime_sub.
  destruct (Z.ltb_spec (ts - window_duration) 0); [reflexivity | lia].
Qed.

(** The sample appended by a call survives the purge of that call. *)
Lemma window_after_appended (ts : datetime) (v : float) (old : list sample) :
  ∃ kept, window_after ts (old ++ [(ts, v)]) = kept ++ [(ts, v)]
          ∧ kept `suffix_of` old.
Proof.
  unfold window_after.
  destruct (datetime_sub ts _) as [cutoff|e] eqn:Hc.
  - apply cutoff_value in Hc. apply purge_keeps_from.
    rewrite Hc, window_duration_val. simpl. lia.
  - by exists old.
Qed.

(** [check_anomaly] reads the buffers and writes only to the sink. *)
Lemma check_anomaly_buffers now room met w :
  buffers (check_anomaly now room met w).2 = buffers w.
Proof.
  unfold check_anomaly.
  destruct (buffers w !! (room, met)) as [buf|]; [|reflexivity].
  destruct (length buf <? 3)%nat; [reflexivity|].
  destruct (window_stats _) as [st|e]; [|reflexivity].
  destruct (exceeds_threshold _); reflexivity.
Qed.

(** The whole effect of one call on the buffers. *)
Lemma push_sample_buffers now room met ts v w :
  buffers (push_sample now room met ts v w).2
  = <[(room, met) := window_after ts (appended w (room, met) ts v)]> (buffers w).
Proof.
  unfold push_sample, window_after, mbind, append_sample, purge_old, lift, appended.
  destruct (datetime_sub ts _) as [cutoff|e]; [|reflexivity].
  rewrite check_anomaly_buffers. simpl.
  by rewrite lookup_insert_eq, insert_insert_eq.
Qed.

Lemma push_sample_window now room met ts v w :
  buffers (push_sample now room met ts v w).2 !! (room, met)
  = Some (window_after ts (appended w (room, met) ts v)).
Proof. rewrite push_sample_buffers. apply lookup_insert_eq. Qed.

Lemma push_sample_Some_window now room met ts v w :
  window_duration ≤ ts →
  buffers (push_sample now room met ts v w).2 !! (room, met)
  = Some (purge (ts - window_duration) (appended w (room, met) ts v)).
Proof.
  intros Hts. rewrite push_sample_window. unfold window_after.
  by rewrite cutoff_exists.
Qed.

(** The window of the key after a call: what the purge kept of the old
    window, then the new sample. *)
Lemma appended_sample_kept now room met ts v w :
  ∃ kept,
    buffers (push_sample now room met ts v w).2 !! (room, met)
    = Some (kept ++ [(ts, v)])
    ∧ kept `suffix_of` default [] (buffers w !! (room, met)).
Proof.
  destruct (window_after_appended ts v (default [] (buffers w !! (room, met))))
    as [kept [Hwin Hsuf]].
  exists kept. split; [|assumption].
  rewrite push_sample_window. unfold appended. by rewrite Hwin.
Qed.

(** C8: after a call of [push_sample], successful or not, the window of
    its key is not empty: it is a suffix of the old window (samples leave
    at the front only) followed by the sample that was just appended. *)
Theorem push_sample_keeps_appended now room met ts v w :
  ∃ win kept,
    buffers (push_sample now room met ts v w).2 !! (room, met) = Some win
    ∧ win = kept ++ [(ts, v)]
    ∧ kept `suffix_of` default [] (buffers w !! (room, met))
    ∧ win ≠ [].
Proof.
  destruct (appended_sample_kept now room met ts v w)
    as [kept [Hwin Hsuf]].
  exists (kept ++ [(ts, v)]), kept. repeat split; [assumption.. |].
  by destruct kept.
Qed.

(** C9: a call of [push_sample] for the key (room, met) leaves the window
    of every other key as it was. *)
Theorem push_sample_frame now room met ts v w (k' : string * string) :
  k' ≠ (room, met) →
  buffers (push_sample now room met ts v w).2 !! k' = buffers w !! k'.
Proof.
  intros Hne. rewrite push_sample_buffers. by apply lookup_insert_ne.
Qed.

(** C5: on a window of fewer than three samples [check_anomaly] returns
    [None], and neither the buffers nor the sink change. *)
Theorem check_anomaly_min_samples now room met w (buf : list (Z * float)) :
  buffers w !! (room, met) = Some buf →
  (length buf < 3)%nat →
  check_anomaly now room met w = (Return None, w).
Proof.
  intros Hbuf Hlen. unfold check_anomaly. rewrite Hbuf.
  destruct (Nat.ltb_spec (length buf) 3); [reflexivity | lia].
Qed.

(** C10: for a key that was never ingested, or whose deque is empty,
    [check_anomaly] returns [None]; it raises nothing and changes nothing. *)
Theorem check_anomaly_missing_or_empty now room met w :
  buffers w !! (room, met) = None ∨ buffers w !! (room, met) = Some [] →
  check_anomaly now room met w = (Return None, w).
Proof.
  intros [Hnone|Hempty]; unfold check_anomaly.
  - by rewrite Hnone.
  - by rewrite Hempty.
Qed.

Lemma push_sample_frame_witness :
  ("B", "co2") ≠ ("A", "co2")
  ∧ buffers (push_sample 0 "A" "co2" (sec 5000) 9999 room_b_only).2 !! ("B", "co2")
    = buffers room_b_only !! ("B", "co2").
Proof.
  split; [discriminate | apply push_sample_frame; discriminate].
Defined.

Lemma check_anomaly_min_samples_witness :
  check_anomaly 0 "B" "co2" room_b_only = (Return None, room_b_only).
Proof.
  apply (check_anomaly_min_samples 0 "B" "co2" room_b_only [(sec 5000, 400%float)]).
  - vm_compute. reflexivity.
  - simpl. lia.
Defined.

Lemma check_anomaly_missing_or_empty_witness :
  check_anomaly 0 "A" "co2" room_b_only = (Return None, room_b_only).
Proof.
  apply check_anomaly_missing_or_empty. left. vm_compute. reflexivity.
Defined.

(** ** Eviction at the boundary *)

Section ListFacts.
Context {A : Type} (P : A → Prop) `{∀ x, Decision (P x)}.

Lemma filter_all (l : list A) : Forall P l → filter P l = l.
Proof.
  induction 1 as [|x l Hx _ IH]; [reflexivity|].
  rewrite filter_cons_True by assumption. by rewrite IH.
Qed.

Lemma Forall_filter (Q : A → Prop) (l : list A) :
  Forall Q l → Forall Q (filter P l).
Proof.
  induction 1 as [|x l Hx _ IH]; [constructor|].
  rewrite filter_cons. destruct (decide (P x)); [by constructor | assumption].
Qed.

Lemma StronglySorted_filter (R : relation A) (l : list A) :
  StronglySorted R l → StronglySorted R (filter P l).
Proof.
  induction 1 as [|x l _ IH Hx]; [constructor|].
  rewrite filter_cons. destruct (decide (P x)); [|assumption].
  constructor; [assumption | by apply Forall_filter].
Qed.
End ListFacts.

Lemma time_ordered_strongly (l : list (Z * float)) :
  time_ordered l → StronglySorted ts_le l.
Proof.
  unfold time_ordered. intros Hs.
  apply (Sorted_StronglySorted Z.le _) in Hs.
  induction l as [|s l IH]; [constructor|].
  simpl in Hs. apply StronglySorted_inv in Hs as [Hl Hall].
  constructor; [by apply IH|].
  rewrite Forall_fmap in Hall. eapply Forall_impl; [exact Hall|].
  intros x Hx. exact Hx.
Qed.

Lemma sorted_prefix_older (cutoff : Z) (pre : list (Z * float)) (s : Z * float) :
  time_ordered (pre ++ [s]) → s.1 < cutoff → Forall (λ x, x.1 < cutoff) pre.
Proof.
  intros Hs%time_ordered_strongly Hlt.
  apply Forall_forall. intros x Hx.
  assert (ts_le x s) as Hle.
  { apply (StronglySorted_app_1_elem_of _ _ _ _ _ Hs Hx). by apply list_elem_of_singleton. }
  unfold ts_le in Hle. lia.
Qed.

(** C7 (amended): the boundary of the purge is inclusive.  After a call
    with timestamp [ts], a sample whose timestamp is exactly
    [ts - window_duration] stays in the window together with everything
    behind it; a sample older than that is evicted when every sample ahead
    of it in the deque is older as well, which is always the case in a
    time-ordered window. *)
Theorem purge_boundary_inclusive now room met ts v w
    (pre post : list (Z * float)) (s : Z * float) :
  window_duration ≤ ts →
  buffers w !! (room, met) = Some (pre ++ s :: post) →
  let cutoff := ts - window_duration in
  let win := buffers (push_sample now room met ts v w).2 !! (room, met) in
  (s.1 = cutoff →
     ∃ kept, win = Some (kept ++ s :: post ++ [(ts, v)]) ∧ kept `suffix_of` pre)
  ∧ (s.1 < cutoff → Forall (λ x, x.1 < cutoff) pre →
     ∃ kept, win = Some (kept ++ [(ts, v)]) ∧ kept `suffix_of` post)
  ∧ (s.1 < cutoff → time_ordered (pre ++ [s]) →
     ∃ kept, win = Some (kept ++ [(ts, v)]) ∧ kept `suffix_of` post).
Proof.
  intros Hts Hbuf cutoff win.
  assert (win = Some (purge cutoff ((pre ++ s :: post) ++ [(ts, v)]))) as Hwin.
  { unfold win. rewrite push_sample_Some_window by assumption.
    unfold appended. by rewrite Hbuf. }
  assert (s.1 < cutoff → Forall (λ x, x.1 < cutoff) pre →
          ∃ kept, win = Some (kept ++ [(ts, v)]) ∧ kept `suffix_of` post) as Hold.
  { intros Hlt Hpre.
    destruct (purge_keeps_from cutoff post [] (ts, v)) as [kept [Hk Hsuf]].
    { unfold cutoff. rewrite window_duration_val. simpl. lia. }
    exists kept. split; [|assumption].
    rewrite Hwin, <- Hk. f_equal.
    replace ((pre ++ s :: post) ++ [(ts, v)])
      with ((pre ++ [s]) ++ post ++ [(ts, v)]) by by rewrite <- !app_assoc.
    apply purge_all_old. apply Forall_app. by repeat constructor. }
  split; [|split].
  - intros Hs.
    destruct (purge_keeps_from cutoff pre (post ++ [(ts, v)]) s) as [kept [Hk Hsuf]];
      [lia|].
    exists kept. split; [|assumption].
    rewrite Hwin, <- Hk. by rewrite <- app_assoc.
  - exact Hold.
  - intros Hlt Hord. apply Hold; [assumption|]. by eapply sorted_prefix_older.
Qed.

Lemma purge_boundary_inclusive_witness :
  let win := buffers (push_sample 0 "B" "co2" (sec 6800) 1 room_b_only).2
               !! ("B", "co2") in
  (∃ kept, win = Some (kept ++ (sec 5000, 400%float) :: [] ++ [(sec 6800, 1%float)])
           ∧ kept `suffix_of` []).
Proof.
  refine (proj1 (purge_boundary_inclusive 0 "B" "co2" (sec 6800) 1 room_b_only
                   [] [] (sec 5000, 400%float) _ _) _).
  - vm_compute. discriminate.
  - vm_compute. reflexivity.
  - vm_compute. reflexivity.
Defined.

(** C7 (as stated) fails: behind a fresh front sample an older one is not
    evicted.  The deque holds the timestamps 5000 s and 1000 s; after the
    call at 5500 s the cutoff is 3700 s and the sample of 1000 s is still
    in the window. *)
Lemma stale_sample_behind_fresh_front :
  let w := ingest_all "A" "co2" late_arrival fresh in
  buffers w !! ("A", "co2") = Some [(sec 5000, 1%float); (sec 1000, 2%float)]
  ∧ sec 1000 < sec 5500 - window_duration
  ∧ buffers (push_sample 0 "A" "co2" (sec 5500) 3 w).2 !! ("A", "co2")
    = Some [(sec 5000, 1%float); (sec 1000, 2%float); (sec 5500, 3%float)].
Proof. vm_compute. repeat split; reflexivity. Qed.

(** ** The window of a time-ordered stream *)

(** On a deque in timestamp order the front-only loop removes every
    sample older than the cutoff. *)
Lemma purge_sorted_filter (cutoff : Z) (buf : list (Z * float)) :
  StronglySorted ts_le buf →
  purge cutoff buf = filter (λ s, cutoff ≤ s.1) buf.
Proof.
  induction 1 as [|s rest _ IH Hall]; [reflexivity|].
  simpl. destruct (Z.ltb_spec s.1 cutoff) as [Hlt|Hge].
  - rewrite filter_cons_False by lia. exact IH.
  - rewrite filter_all; [reflexivity|].
    constructor; [assumption|].
    eapply Forall_impl; [exact Hall|]. unfold ts_le. intros x Hx. lia.
Qed.

Lemma window_after_sorted (ts : Z) (buf : list (Z * float)) :
  StronglySorted ts_le buf →
  Forall (λ s, 0 ≤ s.1) buf →
  window_after ts buf = in_window ts buf.
Proof.
  intros Hsorted Hpos. unfold window_after, in_window.
  destruct (datetime_sub ts window_duration) as [cutoff|e] eqn:Hc.
  - apply cutoff_value in Hc as ->. by apply purge_sorted_filter.
  - symmetry. apply filter_all.
    eapply Forall_impl; [exact Hpos|]. intros x Hx. simpl in *.
    unfold datetime_sub in Hc.
    destruct (Z.ltb_spec (ts - window_duration) 0); [lia | discriminate].
Qed.

Lemma ingest_all_snoc room met (l : list (Z * Z * float)) (r : Z * Z * float) w :
  ingest_all room met (l ++ [r]) w
  = (push_sample r.1.1 room met r.1.2 r.2 (ingest_all room met l w)).2.
Proof. unfold ingest_all. by rewrite fold_left_app. Qed.

Lemma in_window_sorted (latest : Z) (l : list (Z * float)) :
  StronglySorted ts_le l → StronglySorted ts_le (in_window latest l).
Proof. apply StronglySorted_filter. Qed.

(** The invariant of a time-ordered stream on a fresh key. *)
Lemma ingest_all_time_ordered room met w (l : list (Z * Z * float)) :
  default [] (buffers w !! (room, met)) = [] →
  StronglySorted ts_le (readings_samples l) →
  Forall (λ s, 0 ≤ s.1) (readings_samples l) →
  default [] (buffers (ingest_all room met l w) !! (room, met))
  = match last l with
    | None => []
    | Some r => in_window r.1.2 (readings_samples l)
    end.
Proof.
  intros Hfresh. induction l as [|r l IH] using rev_ind; intros Hsorted Hpos.
  - exact Hfresh.
  - unfold readings_samples in Hsorted, Hpos. rewrite fmap_app in Hsorted, Hpos.
    fold (readings_samples l) in Hsorted, Hpos. simpl in Hsorted, Hpos.
    apply StronglySorted_app in Hsorted as (Hbefore & Hsl & _).
    apply Forall_app in Hpos as [Hposl Hposr].
    specialize (IH Hsl Hposl).
    rewrite last_snoc, ingest_all_snoc, push_sample_window. simpl.
    unfold appended. rewrite IH.
    set (s := (r.1.2, r.2)).
    assert (readings_samples (l ++ [r]) = readings_samples l ++ [s]) as ->.
    { unfold readings_samples. by rewrite fmap_app. }
    assert (∀ x, x ∈ readings_samples l → x.1 ≤ r.1.2) as Hle.
    { intros x Hx. apply (Hbefore x s Hx). by apply list_elem_of_singleton. }
    destruct (last l) as [r'|] eqn:Hlast.
    + assert (r'.1.2 ≤ r.1.2) as Hr'.
      { apply (Hle (r'.1.2, r'.2)). unfold readings_samples.
        apply list_elem_of_fmap. exists r'. split; [reflexivity|].
        by apply last_Some_elem_of. }
      rewrite window_after_sorted.
      * unfold in_window. rewrite !filter_app. f_equal.
        apply list_filter_filter_l. intros x Hx. lia.
      * apply StronglySorted_app_2.
        -- intros x1 x2 Hx1 ->%list_elem_of_singleton.
           apply list_elem_of_filter in Hx1 as [_ Hx1]. by apply Hle.
        -- by apply in_window_sorted.
        -- repeat constructor.
      * apply Forall_app. split; [by apply Forall_filter | assumption].
    + apply last_None in Hlast as ->. simpl.
      rewrite window_after_sorted; [reflexivity | repeat constructor | assumption].
Qed.

(** C3 (amended): for a stream of readings of one key whose timestamps are
    valid datetimes in non-decreasing order, ingested into a key without
    samples, the window after the last ingestion holds exactly the ingested
    samples whose timestamp is at least [latest - window_duration], in
    arrival order.  Every prefix of a stream is such a stream, so this holds
    after each ingestion. *)
Theorem window_exact_when_time_ordered room met w
    (l : list (Z * Z * float)) (r : Z * Z * float) :
  default [] (buffers w !! (room, met)) = [] →
  time_ordered (readings_samples (l ++ [r])) →
  Forall (λ s, 0 ≤ s.1) (readings_samples (l ++ [r])) →
  buffers (ingest_all room met (l ++ [r]) w) !! (room, met)
  = Some (in_window r.1.2 (readings_samples (l ++ [r]))).
Proof.
  intros Hfresh Hord Hpos.
  pose proof (ingest_all_time_ordered room met w (l ++ [r]) Hfresh
                (time_ordered_strongly _ Hord) Hpos) as Hinv.
  rewrite last_snoc in Hinv. rewrite <- Hinv.
  rewrite ingest_all_snoc, push_sample_window. reflexivity.
Qed.

Lemma window_exact_when_time_ordered_witness :
  buffers (ingest_all "A" "co2"
             ([(0, sec 1000, 1%float); (0, sec 2000, 2%float)] ++ [(7, sec 3000, 3%float)])
             fresh) !! ("A", "co2")
  = Some (in_window (sec 3000)
            (readings_samples
               ([(0, sec 1000, 1%float); (0, sec 2000, 2%float)] ++ [(7, sec 3000, 3%float)]))).
Proof.
  apply (window_exact_when_time_ordered "A" "co2" fresh
           [(0, sec 1000, 1%float); (0, sec 2000, 2%float)] (7, sec 3000, 3%float)).
  - reflexivity.
  - repeat constructor; vm_compute; discriminate.
  - repeat constructor; vm_compute; discriminate.
Defined.

(** C3 (as stated) fails on a stream that is not time-ordered.  After the
    readings at 1000 s, 9000 s and 2000 s the cutoff is 200 s: the sample
    of 1000 s lies inside the range but was evicted by the second call. *)
Lemma window_not_exact_out_of_order :
  buffers (ingest_all "A" "co2" jump_and_back fresh) !! ("A", "co2")
  = Some [(sec 9000, 2%float); (sec 2000, 3%float)]
  ∧ in_window (sec 2000) (readings_samples jump_and_back)
    = [(sec 1000, 1%float); (sec 9000, 2%float); (sec 2000, 3%float)]
  ∧ buffers (ingest_all "A" "co2" jump_and_back fresh) !! ("A", "co2")
    ≠ Some (in_window (sec 2000) (readings_samples jump_and_back)).
Proof.
  split; [|split].
  - vm_compute. reflexivity.
  - vm_compute. reflexivity.
  - vm_compute. discriminate.
Qed.

(** ** Values that are not finite *)

Lemma snoc_eq_cons {A : Type} (l : list A) (a s : A) :
  l ++ [s] = a :: l → a = s.
Proof.
  revert a. induction l as [|b l IH]; intros a Heq; simpl in Heq.
  - congruence.
  - injection Heq as -> Hl. by apply IH.
Qed.

(** A call always changes the window of its key. *)
Lemma window_after_changes (ts : Z) (v : float) (old : list (Z * float)) :
  window_after ts (old ++ [(ts, v)]) ≠ old.
Proof.
  unfold window_after.
  destruct (datetime_sub ts window_duration) as [cutoff|e] eqn:Hc.
  - apply cutoff_value in Hc.
    destruct (purge_split cutoff (old ++ [(ts, v)])) as [dropped [Heq Hold]].
    intros Hsame. rewrite Hsame in Heq.
    assert (length dropped = 1%nat) as Hlen.
    { apply (f_equal length) in Heq. rewrite !length_app in Heq. simpl in Heq. lia. }
    destruct dropped as [|a [|? ?]]; try discriminate.
    apply snoc_eq_cons in Heq as ->.
    apply Forall_inv in Hold. simpl in Hold.
    rewrite Hc, window_duration_val in Hold. lia.
  - intros Hsame. apply (f_equal length) in Hsame.
    rewrite length_app in Hsame. simpl in Hsame. lia.
Qed.

(** C2 (amended): [push_sample] validates nothing.  A value that is NaN or
    an infinity is appended like any other: after the call it is the last
    sample of the window of its key, that window differs from the one
    before the call, and, when [ts - window_duration] is a valid datetime,
    the call goes on to evaluate the window (an earlier [ts] raises
    [OverflowError] once the sample is appended). *)
Theorem push_sample_accepts_non_finite now room met ts v w :
  PrimFloat.is_finite v = false →
  let w' := (push_sample now room met ts v w).2 in
  (∃ kept, buffers w' !! (room, met) = Some (kept ++ [(ts, v)])
           ∧ kept `suffix_of` default [] (buffers w !! (room, met)))
  ∧ buffers w' !! (room, met) ≠ buffers w !! (room, met)
  ∧ (window_duration ≤ ts →
     push_sample now room met ts v w
     = check_anomaly now room met
         (set_buffers w (<[(room, met) :=
             purge (ts - window_duration) (appended w (room, met) ts v)]> (buffers w)))).
Proof.
  intros _ w'. split; [|split].
  - destruct (appended_sample_kept now room met ts v w) as [kept H].
    by exists kept.
  - unfold w'. rewrite push_sample_window. unfold appended.
    intros Hsame.
    apply (window_after_changes ts v (default [] (buffers w !! (room, met)))).
    destruct (buffers w !! (room, met)) as [old|]; [|discriminate].
    simpl in *. congruence.
  - intros Hts.
    unfold push_sample, mbind, append_sample, purge_old, lift, appended.
    rewrite (cutoff_exists ts Hts). f_equal. unfold set_buffers. simpl.
    by rewrite lookup_insert_eq, insert_insert_eq.
Qed.

Lemma push_sample_accepts_non_finite_witness :
  PrimFloat.is_finite nan = false
  ∧ buffers (push_sample 0 "A" "co2" (sec 5000) nan fresh).2 !! ("A", "co2")
    ≠ buffers fresh !! ("A", "co2").
Proof.
  split; [reflexivity|].
  refine (proj1 (proj2
    (push_sample_accepts_non_finite 0 "A" "co2" (sec 5000) nan fresh _))).
  reflexivity.
Defined.

(** C2 (as stated) fails: the NaN reading is not rejected.  The call
    returns [None] and not an error, and the sample sits in the window
    of a key that had none. *)
Lemma nan_reading_is_appended :
  PrimFloat.is_finite nan = false
  ∧ (push_sample 0 "A" "co2" (sec 5000) nan fresh).1 = Return None
  ∧ buffers fresh !! ("A", "co2") = None
  ∧ buffers (push_sample 0 "A" "co2" (sec 5000) nan fresh).2 !! ("A", "co2")
    = Some [(sec 5000, nan)].
Proof. vm_compute. repeat split; reflexivity. Qed.

(** * Properties of the evaluator *)

(** What it takes for [check_anomaly] to return a record. *)
Lemma check_anomaly_Some now room met w (a : anomaly) :
  (check_anomaly now room met w).1 = Return (Some a) →
  ∃ buf st,
    buffers w !! (room, met) = Some buf
    ∧ window_stats (map snd buf) = Return st
    ∧ exceeds_threshold (st_z st) = true
    ∧ a = record_of now room met buf st.
Proof.
  unfold check_anomaly.
  destruct (buffers w !! (room, met)) as [buf|]; [|discriminate].
  destruct (length buf <? 3)%nat; [discriminate|].
  destruct (window_stats (map snd buf)) as [st|e] eqn:Hst; [|discriminate].
  destruct (exceeds_threshold (st_z st)) eqn:Hz; [|discriminate].
  unfold mbind, write_anomaly, mret. simpl. intros [= <-].
  exists buf, st. repeat split; assumption.
Qed.

Lemma check_anomaly_detects now room met w (buf : list (Z * float)) (st : stats) :
  buffers w !! (room, met) = Some buf →
  (3 ≤ length buf)%nat →
  window_stats (map snd buf) = Return st →
  exceeds_threshold (st_z st) = true →
  (check_anomaly now room met w).1 = Return (Some (record_of now room met buf st)).
Proof.
  intros Hbuf Hlen Hst Hz. unfold check_anomaly. rewrite Hbuf.
  destruct (Nat.ltb_spec (length buf) 3); [lia|].
  by rewrite Hst, Hz.
Qed.

Lemma anomaly_id_inj room met (now1 now2 : Z) :
  anomaly_id room met now1 = anomaly_id room met now2 → now1 = now2.
Proof.
  unfold anomaly_id. intros Heq.
  repeat apply String.app_inj in Heq.
  by apply pretty_Z_inj in Heq.
Qed.

(** C4 (amended): the identifier is "anom-<roomId>-<metric>-<n>" where [n]
    is the integer [int(datetime.utcnow().timestamp())] computed when the
    window is evaluated; the window end plays no part in it.  When two
    evaluations of the same window both return a record, the two records
    agree on every other field, and their identifiers are equal exactly
    when that integer is the same at both evaluations. *)
Theorem anomaly_id_follows_clock now1 now2 room met w (a1 a2 : anomaly) :
  (check_anomaly now1 room met w).1 = Return (Some a1) →
  (check_anomaly now2 room met (check_anomaly now1 room met w).2).1
  = Return (Some a2) →
  id a1 = anomaly_id room met now1
  ∧ id a2 = anomaly_id room met now2
  ∧ (id a1 = id a2 ↔ now1 = now2)
  ∧ (roomId a2, metric a2, tsStart a2, tsEnd a2, value a2, z a2, reason a2)
    = (roomId a1, metric a1, tsStart a1, tsEnd a1, value a1, z a1, reason a1).
Proof.
  intros Hrun1 Hrun2.
  destruct (check_anomaly_Some _ _ _ _ _ Hrun1) as (buf & st & Hbuf & Hst & Hz & ->).
  destruct (check_anomaly_Some _ _ _ _ _ Hrun2)
    as (buf2 & st2 & Hbuf2 & Hst2 & Hz2 & ->).
  rewrite check_anomaly_buffers, Hbuf in Hbuf2. injection Hbuf2 as <-.
  rewrite Hst in Hst2. injection Hst2 as <-.
  repeat split.
  - apply anomaly_id_inj.
  - by intros ->.
Qed.

Lemma anomaly_id_follows_clock_witness :
  id (record_of 0 "A" "co2" (readings_samples spike_stream) spike_stats)
  = anomaly_id "A" "co2" 0
  ∧ id (record_of 1 "A" "co2" (readings_samples spike_stream) spike_stats)
    = anomaly_id "A" "co2" 1
  ∧ tsEnd (record_of 1 "A" "co2" (readings_samples spike_stream) spike_stats)
    = tsEnd (record_of 0 "A" "co2" (readings_samples spike_stream) spike_stats).
Proof.
  destruct (anomaly_id_follows_clock 0 1 "A" "co2" spiked
              (record_of 0 "A" "co2" (readings_samples spike_stream) spike_stats)
              (record_of 1 "A" "co2" (readings_samples spike_stream) spike_stats))
    as (Hid1 & Hid2 & _ & Hrest).
  - vm_compute. reflexivity.
  - vm_compute. reflexivity.
  - split; [exact Hid1|]. split; [exact Hid2|].
    exact (f_equal (λ t, t.1.1.1.2) Hrest).
Defined.

(** C4 (as stated) fails: the same window evaluated twice, the integer of
    the clock being 0 at the first evaluation and 1 at the second, gives
    two records with different identifiers. *)
Lemma same_window_two_ids :
  ∃ a1 a2,
    (check_anomaly 0 "A" "co2" spiked).1 = Return (Some a1)
    ∧ (check_anomaly 1 "A" "co2" (check_anomaly 0 "A" "co2" spiked).2).1
      = Return (Some a2)
    ∧ buffers (check_anomaly 0 "A" "co2" spiked).2 = buffers spiked
    ∧ tsEnd a1 = tsEnd a2
    ∧ id a1 = "anom-A-co2-0"
    ∧ id a2 = "anom-A-co2-1"
    ∧ id a1 ≠ id a2.
Proof.
  eexists _, _. split; [vm_compute; reflexivity|].
  split; [vm_compute; reflexivity|].
  split; [apply check_anomaly_buffers|].
  vm_compute. repeat split; try reflexivity. discriminate.
Qed.

(** ** The threshold example *)

(** C1 (amended): for a window whose values are 10, 10, 10, 100 the mean is
    32.5, the population deviation is about 38.97 and the score of the
    latest value 100 is about 1.732 (the square root of 3): it does not
    exceed the threshold 2.5, and [check_anomaly] returns [None] without
    writing to the sink. *)
Theorem threshold_example_below_threshold now room met w (buf : list (Z * float)) :
  buffers w !! (room, met) = Some buf →
  map snd buf = [10; 10; 10; 100]%float →
  window_stats (map snd buf)
  = Return {| st_mu := 32.5; st_sigma := 38.97114317029974;
              st_latest := 100; st_z := 1.732050807524433 |}
  ∧ exceeds_threshold 1.732050807524433 = false
  ∧ check_anomaly now room met w = (Return None, w).
Proof.
  intros Hbuf Hvals.
  assert (window_stats (map snd buf)
          = Return {| st_mu := 32.5; st_sigma := 38.97114317029974;
                      st_latest := 100; st_z := 1.732050807524433 |}) as Hst.
  { rewrite Hvals. vm_compute. reflexivity. }
  split; [exact Hst|]. split; [vm_compute; reflexivity|].
  unfold check_anomaly. rewrite Hbuf.
  assert (length buf = 4%nat) as Hlen.
  { rewrite <- (length_map snd), Hvals. reflexivity. }
  rewrite Hlen, Hst. reflexivity.
Qed.

Lemma threshold_example_below_threshold_witness :
  check_anomaly 0 "A" "co2"
    (push_sample 0 "A" "co2" (sec 5003) 100 (ingest_all "A" "co2" threshold_stream fresh)).2
  = (Return None,
     (push_sample 0 "A" "co2" (sec 5003) 100 (ingest_all "A" "co2" threshold_stream fresh)).2).
Proof.
  refine (proj2 (proj2 (threshold_example_below_threshold 0 "A" "co2" _
    [(sec 5000, 10%float); (sec 5001, 10%float); (sec 5002, 10%float);
     (sec 5003, 100%float)] _ _))).
  - vm_compute. reflexivity.
  - reflexivity.
Defined.

(** C1 (as stated) fails: the fourth reading 100, ingested within the
    window of three readings 10, is not reported.  The mean is 32.5 as
    claimed, but the score is below 2.5 and the call returns [None]. *)
Lemma threshold_example_not_reported :
  let w := ingest_all "A" "co2" threshold_stream fresh in
  let r := push_sample 0 "A" "co2" (sec 5003) 100 w in
  map snd (default [] (buffers r.2 !! ("A", "co2"))) = [10; 10; 10; 100]%float
  ∧ (st_mu <$> to_option (window_stats [10; 10; 10; 100]%float)) = Some 32.5%float
  ∧ (st_z <$> to_option (window_stats [10; 10; 10; 100]%float))
    = Some 1.732050807524433%float
  ∧ (2.5 <? PrimFloat.abs 1.732050807524433)%float = false
  ∧ r.1 = Return None
  ∧ sink r.2 = [].
Proof. vm_compute. repeat split; reflexivity. Qed.

(** ** Constant signals *)

(** Facts about binary64 arithmetic, from the specification of the
    primitive operations. *)
Module FloatFacts.

Lemma Prim2SF_zero : Prim2SF 0%float = S754_zero false.
Proof. reflexivity. Qed.

(** A finite float is a zero or has a mantissa and an exponent. *)
Lemma finite_cases (v : float) :
  PrimFloat.is_finite v = true →
  (∃ s, Prim2SF v = S754_zero s) ∨ (∃ s m e, Prim2SF v = S754_finite s m e).
Proof.
  unfold PrimFloat.is_finite, PrimFloat.is_nan, PrimFloat.is_infinity.
  rewrite !FloatAxioms.eqb_spec, FloatAxioms.abs_spec.
  change (Prim2SF infinity) with (S754_infinity false).
  destruct (Prim2SF v) as [s|s| |s m e]; intros Hfin.
  - left. by exists s.
  - by destruct s.
  - discriminate.
  - right. by exists s, m, e.
Qed.

Lemma sub_self (v : float) :
  PrimFloat.is_finite v = true → (v - v)%float = 0%float.
Proof.
  intros Hfin. apply Prim2SF_inj. rewrite FloatAxioms.sub_spec, Prim2SF_zero.
  destruct (finite_cases v Hfin) as [[s ->]|(s & m & e & ->)].
  - by destruct s.
  - unfold SF64sub, SFsub. by rewrite Z.sub_diag.
Qed.

(** The float of an unsigned integer never carries a minus sign. *)
Lemma of_uint63_sign (i : int) :
  match Prim2SF (PrimFloat.of_uint63 i) with
  | S754_zero s | S754_infinity s | S754_finite s _ _ => s = false
  | S754_nan => True
  end.
Proof.
  rewrite FloatAxioms.of_uint63_spec.
  pose proof (Uint63.to_Z_bounded i) as [Hpos _].
  destruct (Uint63.to_Z i) as [|m|m]; [reflexivity| |lia].
  simpl. unfold binary_round, binary_round_aux.
  destruct (shl_align _ _ _) as [mz ez].
  destruct (shr_fexp _ _ _ _ _) as [mrs' e'].
  destruct (shr_fexp _ _ _ _ _) as [mrs'' e''].
  destruct (shr_m mrs''); [reflexivity| |exact I].
  by destruct (_ <=? _).
Qed.

(** A divisor that passed the zero test and gave a finite quotient is a
    positive number or [+inf] when it comes from an integer. *)
Lemma divisor_positive (x : float) (i : int) :
  (PrimFloat.of_uint63 i =? 0)%float = false →
  PrimFloat.is_finite (x / PrimFloat.of_uint63 i)%float = true →
  (∃ m e, Prim2SF (PrimFloat.of_uint63 i) = S754_finite false m e)
  ∨ Prim2SF (PrimFloat.of_uint63 i) = S754_infinity false.
Proof.
  intros Hnz Hfin.
  pose proof (of_uint63_sign i) as Hsign.
  rewrite FloatAxioms.eqb_spec, Prim2SF_zero in Hnz.
  apply finite_cases in Hfin. rewrite FloatAxioms.div_spec in Hfin.
  destruct (Prim2SF (PrimFloat.of_uint63 i)) as [s|s| |s m e].
  - discriminate.
  - right. by rewrite Hsign.
  - exfalso. unfold SF64div, SFdiv in Hfin.
    destruct (Prim2SF x); destruct Hfin as [[? ?]|(? & ? & ? & ?)]; discriminate.
  - left. exists m, e. by rewrite Hsign.
Qed.

Lemma zero_div (y : float) :
  (∃ m e, Prim2SF y = S754_finite false m e) ∨ Prim2SF y = S754_infinity false →
  (0 / y)%float = 0%float.
Proof.
  intros Hy. apply Prim2SF_inj. rewrite FloatAxioms.div_spec, Prim2SF_zero.
  by destruct Hy as [(m & e & ->)| ->].
Qed.

End FloatFacts.

Lemma sum_sq_dev_constant (v : float) (vals : list float) :
  PrimFloat.is_finite v = true →
  Forall (λ x, x = v) vals →
  sum_sq_dev v vals 0%float = Return 0%float.
Proof.
  intros Hfin. induction 1 as [|x vals -> _ IH]; [reflexivity|].
  simpl. rewrite (FloatFacts.sub_self v Hfin). exact IH.
Qed.

Lemma latest_of_constant (v : float) (vals : list float) :
  vals ≠ [] → Forall (λ x, x = v) vals → latest_of vals = v.
Proof.
  intros Hne Hall. unfold latest_of.
  destruct (exists_last Hne) as (l & x & ->).
  rewrite List.last_last. apply Forall_app in Hall as [_ Hx].
  by apply Forall_inv in Hx.
Qed.

(** The statistics of a constant window whose mean comes out exact. *)
Lemma window_stats_constant (v : float) (vals : list float) :
  vals ≠ [] →
  Forall (λ x, x = v) vals →
  PrimFloat.is_finite v = true →
  window_mean vals = Return v →
  window_stats vals
  = Return {| st_mu := v; st_sigma := 0; st_latest := v; st_z := 0 |}.
Proof.
  intros Hne Hall Hfin Hmean. unfold window_stats.
  unfold window_mean in Hmean. rewrite Hmean. simpl.
  rewrite (sum_sq_dev_constant v vals Hfin Hall). simpl.
  unfold truediv, float_of_int in Hmean |- *.
  destruct (PrimFloat.of_uint63 _ =? 0)%float eqn:Hnz; [discriminate|].
  injection Hmean as Hmean.
  rewrite FloatFacts.zero_div.
  - rewrite (latest_of_constant v vals Hne Hall), (FloatFacts.sub_self v Hfin).
    reflexivity.
  - apply (FloatFacts.divisor_positive (sum vals)); [assumption|].
    by rewrite Hmean.
Qed.

(** A constant window whose mean comes out exact.  For a window of three
    or more samples that all carry the same finite value [v], whenever the
    mean computed in binary64 is [v] itself the deviation is 0, the score
    is 0 (the divisor is EPS, not zero, so no [ZeroDivisionError] is
    raised) and [check_anomaly] returns [None].  What the score is when the
    mean is rounded is left open here. *)
Theorem constant_window_no_anomaly now room met w (buf : list (Z * float)) (v : float) :
  buffers w !! (room, met) = Some buf →
  (3 ≤ length buf)%nat →
  Forall (λ s, s.2 = v) buf →
  PrimFloat.is_finite v = true →
  window_mean (map snd buf) = Return v →
  window_stats (map snd buf)
  = Return {| st_mu := v; st_sigma := 0; st_latest := v; st_z := 0 |}
  ∧ check_anomaly now room met w = (Return None, w).
Proof.
  intros Hbuf Hlen Hall Hfin Hmean.
  assert (window_stats (map snd buf)
          = Return {| st_mu := v; st_sigma := 0; st_latest := v; st_z := 0 |}) as Hst.
  { apply window_stats_constant; try assumption.
    - destruct buf; [simpl in Hlen; lia | discriminate].
    - apply List.Forall_map. exact Hall. }
  split; [exact Hst|].
  unfold check_anomaly. rewrite Hbuf.
  destruct (Nat.ltb_spec (length buf) 3); [lia|].
  rewrite Hst. reflexivity.
Qed.

Lemma constant_window_no_anomaly_witness :
  window_stats [10; 10; 10]%float
  = Return {| st_mu := 10; st_sigma := 0; st_latest := 10; st_z := 0 |}
  ∧ check_anomaly 0 "A" "co2" (ingest_all "A" "co2" threshold_stream fresh)
    = (Return None, ingest_all "A" "co2" threshold_stream fresh).
Proof.
  apply (constant_window_no_anomaly 0 "A" "co2"
           (ingest_all "A" "co2" threshold_stream fresh)
           [(sec 5000, 10%float); (sec 5001, 10%float); (sec 5002, 10%float)]
           10%float).
  - vm_compute. reflexivity.
  - simpl. lia.
  - repeat constructor.
  - reflexivity.
  - vm_compute. reflexivity.
Defined.

(** Three readings of 0.1 do not give the score 0.  The sum
    0.1 + 0.1 + 0.1 rounds to 0.30000000000000004, the mean is not 0.1,
    the deviation is not 0 and the score is about -1.39e-8.  No anomaly is
    reported for it. *)
Lemma tenth_window_score_not_zero :
  let w := ingest_all "A" "co2" tenth_stream fresh in
  PrimFloat.is_finite 0.1 = true
  ∧ map snd (default [] (buffers w !! ("A", "co2"))) = [0.1; 0.1; 0.1]%float
  ∧ window_stats [0.1; 0.1; 0.1]%float
    = Return {| st_mu := 0.10000000000000002; st_sigma := 1.3877787807814457e-17;
                st_latest := 0.1; st_z := -1.3877787615221464e-08 |}
  ∧ (0.10000000000000002 =? 0.1)%float = false
  ∧ (1.3877787807814457e-17 =? 0)%float = false
  ∧ (-1.3877787615221464e-08 =? 0)%float = false
  ∧ check_anomaly 0 "A" "co2" w = (Return None, w).
Proof.
  split; [reflexivity|]. split; [vm_compute; reflexivity|].
  split; [vm_compute; reflexivity|].
  repeat split; vm_compute; reflexivity.
Qed.

(** * Further properties of [push_sample] and [check_anomaly] *)

(** ** The purge loop *)

(** The front of a purged deque is not older than the cutoff. *)
Lemma purge_head_not_stale (cutoff : Z) (buf rest : list (Z * float)) (s : Z * float) :
  purge cutoff buf = s :: rest → cutoff ≤ s.1.
Proof.
  induction buf as [|p buf IH]; simpl; [discriminate|].
  destruct (Z.ltb_spec p.1 cutoff) as [Hlt|Hge]; [exact IH|].
  intros [= -> _]. exact Hge.
Qed.

(** X1: purging is cumulative.  Purging at a cutoff and then at a later
    one leaves the same deque as purging at the later cutoff alone; in
    particular a second purge at the same cutoff removes nothing. *)
Theorem purge_purge (c1 c2 : Z) (buf : list (Z * float)) :
  c1 ≤ c2 → purge c2 (purge c1 buf) = purge c2 buf.
Proof.
  intros Hle. induction buf as [|s buf IH]; [reflexivity|].
  simpl. destruct (Z.ltb_spec s.1 c1) as [Hlt1|Hge1].
  - destruct (Z.ltb_spec s.1 c2); [exact IH | lia].
  - reflexivity.
Qed.

Lemma purge_purge_witness :
  purge (sec 3) (purge (sec 2) [(sec 1, 1%float); (sec 2, 2%float); (sec 4, 3%float)])
  = purge (sec 3) [(sec 1, 1%float); (sec 2, 2%float); (sec 4, 3%float)].
Proof. apply purge_purge. vm_compute. discriminate. Defined.

(** The call evaluates the purged window when the cutoff exists. *)
Lemma push_sample_evaluates now room met ts v w :
  window_duration ≤ ts →
  push_sample now room met ts v w
  = check_anomaly now room met
      (set_buffers w (<[(room, met) :=
          purge (ts - window_duration) (appended w (room, met) ts v)]> (buffers w))).
Proof.
  intros Hts.
  unfold push_sample, mbind, append_sample, purge_old, lift, appended.
  rewrite (cutoff_exists ts Hts). f_equal. unfold set_buffers. simpl.
  by rewrite lookup_insert_eq, insert_insert_eq.
Qed.

(** X2: after a call whose cutoff exists, the front sample of the window
    is not older than [ts - window_duration], whatever the order in which
    the samples arrived. *)
Theorem window_front_not_stale now room met ts v w
    (s : Z * float) (rest : list (Z * float)) :
  window_duration ≤ ts →
  buffers (push_sample now room met ts v w).2 !! (room, met) = Some (s :: rest) →
  ts - window_duration ≤ s.1.
Proof.
  intros Hts. rewrite push_sample_Some_window by assumption.
  intros [= Hwin]. by eapply purge_head_not_stale.
Qed.

Lemma window_front_not_stale_witness :
  sec 6800 - window_duration ≤ (sec 5000, 400%float).1.
Proof.
  apply (window_front_not_stale 0 "B" "co2" (sec 6800) 1 room_b_only
           (sec 5000, 400%float) [(sec 6800, 1%float)]).
  - vm_compute. discriminate.
  - vm_compute. reflexivity.
Defined.

(** X3: a timestamp less than [window_duration] after [datetime.min]
    makes the cutoff subtraction raise [OverflowError] after the sample was
    appended: the sample stays in the deque, nothing is purged, the window
    is not evaluated and the sink is not written. *)
Theorem push_sample_early_timestamp now room met ts v w :
  ts < window_duration →
  push_sample now room met ts v w
  = (Raise OverflowError,
     set_buffers w (<[(room, met) := appended w (room, met) ts v]> (buffers w))).
Proof.
  intros Hts. unfold push_sample, mbind, append_sample, lift, appended.
  by rewrite (cutoff_raises ts Hts).
Qed.

Lemma push_sample_early_timestamp_witness :
  push_sample 0 "A" "co2" (sec 60) 1 fresh
  = (Raise OverflowError,
     set_buffers fresh (<[("A", "co2") := appended fresh ("A", "co2") (sec 60) 1]>
                          (buffers fresh))).
Proof. apply push_sample_early_timestamp. vm_compute. reflexivity. Defined.

(** ** What a returned record says *)

Lemma window_stats_latest (vals : list float) (st : stats) :
  window_stats vals = Return st → st_latest st = latest_of vals.
Proof.
  unfold window_stats.
  destruct (truediv (sum vals) _) as [mu|]; [|discriminate]. simpl.
  destruct (sum_sq_dev mu vals 0) as [s|]; [|discriminate]. simpl.
  destruct (truediv s _) as [var|]; [|discriminate]. simpl.
  destruct (math_sqrt var) as [sigma|]; [|discriminate]. simpl.
  destruct (truediv _ _) as [zs|]; [|discriminate]. simpl.
  by intros [= <-].
Qed.

Lemma check_anomaly_Some_length now room met w (a : anomaly) :
  (check_anomaly now room met w).1 = Return (Some a) →
  ∃ buf, buffers w !! (room, met) = Some buf ∧ (3 ≤ length buf)%nat.
Proof.
  unfold check_anomaly.
  destruct (buffers w !! (room, met)) as [buf|]; [|discriminate].
  destruct (Nat.ltb_spec (length buf) 3); [discriminate|].
  intros _. by exists buf.
Qed.

(** X4: a record returned by [push_sample] describes the reading just
    ingested.  Its value and window end are the value and timestamp of the
    call, room and metric are those of the call, the reason is
    "rolling-z", its score exceeds the threshold, the window start is not
    older than [ts - window_duration] and the window it was computed from
    holds at least three samples. *)
Theorem push_sample_record now room met ts v w (a : anomaly) :
  (push_sample now room met ts v w).1 = Return (Some a) →
  value a = v ∧ tsEnd a = ts
  ∧ roomId a = room ∧ metric a = met ∧ reason a = "rolling-z"
  ∧ exceeds_threshold (z a) = true
  ∧ ts - window_duration ≤ tsStart a
  ∧ ∃ win, buffers (push_sample now room met ts v w).2 !! (room, met) = Some win
           ∧ (3 ≤ length win)%nat.
Proof.
  intros Hrun.
  assert (window_duration ≤ ts) as Hts.
  { destruct (Z.le_gt_cases window_duration ts) as [|Hlt]; [assumption|].
    rewrite push_sample_early_timestamp in Hrun by lia. discriminate. }
  pose proof (push_sample_Some_window now room met ts v w Hts) as Hwin.
  rewrite push_sample_evaluates in Hrun by assumption.
  destruct (check_anomaly_Some_length _ _ _ _ _ Hrun) as (buf' & Hbuf' & Hlen).
  destruct (check_anomaly_Some _ _ _ _ _ Hrun) as (buf & st & Hbuf & Hst & Hz & ->).
  rewrite Hbuf in Hbuf'. injection Hbuf' as <-.
  simpl in Hbuf. rewrite lookup_insert_eq in Hbuf. injection Hbuf as Hbuf.
  destruct (purge_keeps_from (ts - window_duration)
              (default [] (buffers w !! (room, met))) [] (ts, v))
    as (kept & Hkept & _); [simpl; rewrite window_duration_val; lia|].
  unfold appended in Hbuf, Hwin. rewrite Hkept in Hbuf, Hwin.
  simpl. repeat split; try assumption.
  - rewrite (window_stats_latest _ _ Hst), <- Hbuf.
    unfold latest_of. rewrite map_app.
    change (map snd [(ts, v)]) with [v]. by rewrite List.last_last.
  - rewrite <- Hbuf. unfold last_ts. by rewrite List.last_last.
  - destruct buf as [|s rest]; [simpl in Hlen; lia|]. simpl.
    eapply purge_head_not_stale. rewrite Hkept. exact Hbuf.
  - exists buf. by rewrite Hwin, Hbuf.
Qed.

Lemma push_sample_record_witness :
  value (record_of 0 "A" "co2" (readings_samples spike_stream) spike_stats) = 100%float
  ∧ tsEnd (record_of 0 "A" "co2" (readings_samples spike_stream) spike_stats) = sec 5007.
Proof.
  destruct (push_sample_record 0 "A" "co2" (sec 5007) 100
              (ingest_all "A" "co2" (take 7 spike_stream) fresh)
              (record_of 0 "A" "co2" (readings_samples spike_stream) spike_stats))
    as (Hv & Hts & _).
  - vm_compute. reflexivity.
  - split; assumption.
Defined.

(** X5: an evaluation that reports nothing has no side effect.  When
    [check_anomaly] returns [None], buffers and sink are as they were:
    [write_anomaly] is reached only once a record has been built. *)
Theorem check_anomaly_quiet now room met w :
  (check_anomaly now room met w).1 = Return None →
  (check_anomaly now room met w).2 = w.
Proof.
  unfold check_anomaly.
  destruct (buffers w !! (room, met)) as [buf|]; [|reflexivity].
  destruct (length buf <? 3)%nat; [reflexivity|].
  destruct (window_stats _) as [st|e]; [|reflexivity].
  destruct (exceeds_threshold _); [discriminate | reflexivity].
Qed.

Lemma check_anomaly_quiet_witness :
  (check_anomaly 0 "A" "co2" (ingest_all "A" "co2" tenth_stream fresh)).2
  = ingest_all "A" "co2" tenth_stream fresh.
Proof. apply check_anomaly_quiet. vm_compute. reflexivity. Defined.

(** X6: the outcome of a call depends on the window of its own key only.
    Two stores that agree on the window of (room, met) give the same
    result and the same new window, whatever the other keys hold. *)
Theorem push_sample_local now room met ts v w1 w2 :
  buffers w1 !! (room, met) = buffers w2 !! (room, met) →
  (push_sample now room met ts v w1).1 = (push_sample now room met ts v w2).1
  ∧ buffers (push_sample now room met ts v w1).2 !! (room, met)
    = buffers (push_sample now room met ts v w2).2 !! (room, met).
Proof.
  intros Hsame. split.
  - destruct (Z.le_gt_cases window_duration ts) as [Hts|Hts].
    + rewrite !push_sample_evaluates by assumption.
      unfold check_anomaly, appended. simpl. rewrite !lookup_insert_eq, Hsame.
      destruct (length _ <? 3)%nat; [reflexivity|].
      destruct (window_stats _) as [st|e]; [|reflexivity].
      destruct (exceeds_threshold _); reflexivity.
    + by rewrite !push_sample_early_timestamp by assumption.
  - rewrite !push_sample_window. unfold appended. by rewrite Hsame.
Qed.

Lemma push_sample_local_witness :
  (push_sample 0 "A" "co2" (sec 5000) 1 fresh).1
  = (push_sample 0 "A" "co2" (sec 5000) 1 room_b_only).1.
Proof.
  refine (proj1 (push_sample_local 0 "A" "co2" (sec 5000) 1 fresh room_b_only _)).
  vm_compute. reflexivity.
Defined.

Lemma short_window_returns_none now room met w (buf : list (Z * float)) :
  buffers w !! (room, met) = Some buf →
  (length buf < 3)%nat →
  check_anomaly now room met w = (Return None, w).
Proof.
  intros Hbuf Hlen. unfold check_anomaly. rewrite Hbuf.
  destruct (Nat.ltb_spec (length buf) 3); [reflexivity | lia].
Qed.

(** X7: the first two readings of a key are never reported.  When the
    window of the key holds fewer than two samples before the call, the
    call returns [None] and writes nothing to the sink. *)
Theorem push_sample_warm_up now room met ts v w :
  (length (default [] (buffers w !! (room, met))) < 2)%nat →
  window_duration ≤ ts →
  (push_sample now room met ts v w).1 = Return None
  ∧ sink (push_sample now room met ts v w).2 = sink w.
Proof.
  intros Hlen Hts. rewrite push_sample_evaluates by assumption.
  set (w' := set_buffers w _).
  assert (check_anomaly now room met w' = (Return None, w')) as ->; [|done].
  eapply short_window_returns_none.
  - unfold w'. simpl. apply lookup_insert_eq.
  - pose proof (suffix_length _ _
      (purge_suffix (ts - window_duration) (appended w (room, met) ts v))) as Hsuf.
    unfold appended in *. rewrite length_app in Hsuf. simpl in Hsuf. lia.
Qed.

Lemma push_sample_warm_up_witness :
  (push_sample 0 "B" "co2" (sec 5001) 9999 room_b_only).1 = Return None.
Proof.
  refine (proj1 (push_sample_warm_up 0 "B" "co2" (sec 5001) 9999 room_b_only _ _)).
  - vm_compute. lia.
  - vm_compute. discriminate.
Defined.

(** ** A NaN in the window *)

(** NaN in binary64 arithmetic. *)
Module FloatNan.

Lemma Prim2SF_nan : Prim2SF nan = S754_nan.
Proof. reflexivity. Qed.

Lemma is_nan_eq (x : float) : PrimFloat.is_nan x = true → x = nan.
Proof.
  unfold PrimFloat.is_nan. rewrite FloatAxioms.eqb_spec. intros Hx.
  apply Prim2SF_inj. rewrite Prim2SF_nan.
  destruct (Prim2SF x) as [s|s| |s m e]; try reflexivity; exfalso.
  - by destruct s.
  - by destruct s.
  - unfold SFeqb, SFcompare in Hx.
    destruct s; rewrite Z.compare_refl, Pos.compare_cont_refl in Hx; discriminate.
Qed.

Lemma add_nan_r (x : float) : (x + nan)%float = nan.
Proof.
  apply Prim2SF_inj. rewrite FloatAxioms.add_spec, Prim2SF_nan.
  by destruct (Prim2SF x).
Qed.

Lemma add_nan_l (x : float) : (nan + x)%float = nan.
Proof.
  apply Prim2SF_inj. rewrite FloatAxioms.add_spec, Prim2SF_nan.
  by destruct (Prim2SF x).
Qed.

Lemma sub_nan_r (x : float) : (x - nan)%float = nan.
Proof.
  apply Prim2SF_inj. rewrite FloatAxioms.sub_spec, Prim2SF_nan.
  by destruct (Prim2SF x).
Qed.

Lemma div_nan_l (x : float) : (nan / x)%float = nan.
Proof.
  apply Prim2SF_inj. rewrite FloatAxioms.div_spec, Prim2SF_nan.
  by destruct (Prim2SF x).
Qed.

Lemma div_nan_r (x : float) : (x / nan)%float = nan.
Proof.
  apply Prim2SF_inj. rewrite FloatAxioms.div_spec, Prim2SF_nan.
  by destruct (Prim2SF x).
Qed.

End FloatNan.

Lemma fold_add_nan (vals : list float) :
  fold_left PrimFloat.add vals nan = nan.
Proof.
  induction vals as [|x vals IH]; [reflexivity|].
  simpl. by rewrite FloatNan.add_nan_l.
Qed.

Lemma sum_with_nan (vals : list float) (acc : float) :
  nan ∈ vals → fold_left PrimFloat.add vals acc = nan.
Proof.
  revert acc. induction vals as [|x vals IH]; intros acc Hin.
  - by apply not_elem_of_nil in Hin.
  - simpl. apply elem_of_cons in Hin as [<-|Hin].
    + rewrite FloatNan.add_nan_r. apply fold_add_nan.
    + by apply IH.
Qed.

Lemma sum_sq_dev_nan_acc (vals : list float) :
  sum_sq_dev nan vals nan = Return nan.
Proof.
  induction vals as [|x vals IH]; [reflexivity|].
  simpl. rewrite FloatNan.sub_nan_r. exact IH.
Qed.

Lemma sum_sq_dev_nan_mean (vals : list float) (acc : float) :
  vals ≠ [] → sum_sq_dev nan vals acc = Return nan.
Proof.
  destruct vals as [|x vals]; [done|]. intros _.
  simpl. rewrite FloatNan.sub_nan_r. simpl.
  rewrite FloatNan.add_nan_r. apply sum_sq_dev_nan_acc.
Qed.

Lemma truediv_nonzero (x y : float) :
  (y =? 0)%float = false → truediv x y = Return (x / y)%float.
Proof. intros Hy. unfold truediv. by rewrite Hy. Qed.

Lemma obind_Return {A B : Type} (a : A) (k : A → outcome B) :
  obind (Return a) k = k a.
Proof. reflexivity. Qed.

Lemma math_sqrt_nan : math_sqrt nan = Return nan.
Proof. reflexivity. Qed.

(** A NaN among the values makes the score NaN, unless the division by
    the length raises first. *)
Lemma window_stats_with_nan (vals : list float) :
  nan ∈ vals →
  window_stats vals = Raise ZeroDivisionError
  ∨ ∃ st, window_stats vals = Return st ∧ st_z st = nan.
Proof.
  intros Hin. unfold window_stats.
  set (n := float_of_int (Z.of_nat (length vals))).
  destruct (n =? 0)%float eqn:Hn.
  - left. unfold truediv at 1. by rewrite Hn.
  - right. rewrite (truediv_nonzero _ n Hn).
    unfold sum. rewrite (sum_with_nan vals 0 Hin), FloatNan.div_nan_l.
    rewrite obind_Return.
    rewrite sum_sq_dev_nan_mean by (intros ->; by apply not_elem_of_nil in Hin).
    rewrite obind_Return, (truediv_nonzero _ n Hn), FloatNan.div_nan_l.
    rewrite obind_Return, math_sqrt_nan, obind_Return.
    rewrite FloatNan.add_nan_l, (truediv_nonzero _ nan) by reflexivity.
    rewrite FloatNan.div_nan_r, obind_Return.
    eexists. split; reflexivity.
Qed.

(** X8: a NaN poisons the window.  While a sample whose value is NaN sits
    in the window of a key, [check_anomaly] returns no record for that key
    and leaves buffers and sink as they were. *)
Theorem nan_window_never_reported now room met w
    (buf : list (Z * float)) (s : Z * float) :
  buffers w !! (room, met) = Some buf →
  s ∈ buf →
  PrimFloat.is_nan s.2 = true →
  (∀ a, (check_anomaly now room met w).1 ≠ Return (Some a))
  ∧ (check_anomaly now room met w).2 = w.
Proof.
  intros Hbuf Hs Hnan.
  assert (nan ∈ map snd buf) as Hin.
  { rewrite <- (FloatNan.is_nan_eq _ Hnan).
    apply list_elem_of_In, in_map. by apply list_elem_of_In. }
  unfold check_anomaly. rewrite Hbuf.
  destruct (length buf <? 3)%nat; [by split|].
  destruct (window_stats_with_nan _ Hin) as [-> | (st & -> & Hz)]; [by split|].
  rewrite Hz. by split.
Qed.

Lemma nan_window_never_reported_witness :
  (check_anomaly 0 "A" "co2"
     (ingest_all "A" "co2"
        [(0, sec 5000, nan); (0, sec 5001, 10%float); (0, sec 5002, 10%float);
         (0, sec 5003, 1000%float)] fresh)).2
  = ingest_all "A" "co2"
      [(0, sec 5000, nan); (0, sec 5001, 10%float); (0, sec 5002, 10%float);
       (0, sec 5003, 1000%float)] fresh.
Proof.
  refine (proj2 (nan_window_never_reported 0 "A" "co2" _
            [(sec 5000, nan); (sec 5001, 10%float); (sec 5002, 10%float);
             (sec 5003, 1000%float)] (sec 5000, nan) _ _ _)).
  - vm_compute. reflexivity.
  - apply list_elem_of_here.
  - reflexivity.
Defined.

(** ** Time-ordered windows *)

Lemma strongly_time_ordered (l : list (Z * float)) :
  StronglySorted ts_le l → time_ordered l.
Proof.
  intros Hs. unfold time_ordered. apply StronglySorted_Sorted.
  eapply (StronglySorted_fmap fst ts_le Z.le); [|exact Hs].
  intros x y Hxy. exact Hxy.
Qed.

(** X9: a reading that is not older than the samples of a time-ordered
    window leaves a time-ordered window whose samples all lie in the
    trailing interval from [ts - window_duration] to [ts]. *)
Theorem time_ordered_window_span now room met ts v w :
  time_ordered (appended w (room, met) ts v) →
  window_duration ≤ ts →
  ∃ win,
    buffers (push_sample now room met ts v w).2 !! (room, met) = Some win
    ∧ time_ordered win
    ∧ Forall (λ s, ts - window_duration ≤ s.1 ≤ ts) win.
Proof.
  intros Hord%time_ordered_strongly Hts.
  exists (purge (ts - window_duration) (appended w (room, met) ts v)).
  split; [by apply push_sample_Some_window|].
  rewrite purge_sorted_filter by assumption. split.
  - apply strongly_time_ordered. by apply StronglySorted_filter.
  - apply Forall_forall. intros s [Hlow Hs]%list_elem_of_filter.
    split; [exact Hlow|].
    unfold appended in Hord, Hs. apply elem_of_app in Hs as [Hs|Hs].
    + apply (StronglySorted_app_1_elem_of _ _ _ s (ts, v) Hord Hs).
      apply list_elem_of_here.
    + apply list_elem_of_singleton in Hs as ->. simpl. lia.
Qed.

Lemma time_ordered_window_span_witness :
  ∃ win,
    buffers (push_sample 0 "B" "co2" (sec 6900) 1 room_b_only).2 !! ("B", "co2")
    = Some win
    ∧ time_ordered win
    ∧ Forall (λ s, sec 6900 - window_duration ≤ s.1 ≤ sec 6900) win.
Proof.
  apply time_ordered_window_span.
  - repeat constructor; vm_compute; discriminate.
  - vm_compute. discriminate.
Defined.

(** * Properties of the threshold monitor *)

(** The order of binary64 values. *)
Module FloatOrder.

Lemma SFcompare_antisym (x y : spec_float) :
  SFcompare y x = option_map CompOpp (SFcompare x y).
Proof.
  destruct x as [sx|sx| |sx mx ex], y as [sy|sy| |sy my ey]; simpl;
    try reflexivity; try (by destruct sx); try (by destruct sy);
    try (by destruct sx, sy).
  destruct sx, sy; simpl; try reflexivity.
  - rewrite (Z.compare_antisym ey ex).
    destruct (ey ?= ex); simpl; try reflexivity.
    f_equal. by rewrite CompOpp_involutive, Pos.compare_cont_antisym.
  - rewrite (Z.compare_antisym ey ex).
    destruct (ey ?= ex); simpl; try reflexivity.
    f_equal. by rewrite Pos.compare_cont_antisym.
Qed.

Lemma ltb_leb (x y : float) : (x <? y)%float = true → (x <=? y)%float = true.
Proof.
  rewrite FloatAxioms.ltb_spec, FloatAxioms.leb_spec. unfold SFltb, SFleb.
  by destruct (SFcompare _ _) as [[]|].
Qed.

Lemma leb_not_ltb (x y : float) : (x <=? y)%float = true → (y <? x)%float = false.
Proof.
  rewrite FloatAxioms.ltb_spec, FloatAxioms.leb_spec. unfold SFltb, SFleb.
  rewrite (SFcompare_antisym (Prim2SF x) (Prim2SF y)).
  by destruct (SFcompare _ _) as [[]|].
Qed.

Lemma ltb_nan_l (y : float) : (nan <? y)%float = false.
Proof. rewrite FloatAxioms.ltb_spec. reflexivity. Qed.

Lemma ltb_nan_r (x : float) : (x <? nan)%float = false.
Proof.
  rewrite FloatAxioms.ltb_spec. change (Prim2SF nan) with S754_nan.
  unfold SFltb. by destruct (Prim2SF x).
Qed.

(** A value that is at most a positive number is not above a positive
    number of larger exponent. *)
Lemma leb_not_above (x c1 c2 : float) (m1 m2 : positive) (e1 e2 : Z) :
  Prim2SF c1 = S754_finite false m1 e1 →
  Prim2SF c2 = S754_finite false m2 e2 →
  e1 < e2 →
  (x <=? c1)%float = true → (c2 <? x)%float = false.
Proof.
  intros H1 H2 He.
  rewrite FloatAxioms.ltb_spec, FloatAxioms.leb_spec, H1, H2.
  unfold SFltb, SFleb, SFcompare.
  destruct (Prim2SF x) as [s|s| |s m e].
  - done.
  - by destruct s.
  - done.
  - destruct s; [done|].
    destruct (Z.compare_spec e e1), (Z.compare_spec e2 e); try done; lia.
Qed.

End FloatOrder.

Module MonitorFacts.
Import Monitor.

Lemma generate_incident_report_Return (E : pylib) row f sev rsn dt (r : incident) :
  generate_incident_report E row f sev rsn dt = Return r →
  r = {| id := "ANOMALY-" +:+ pretty (hash_str E row `mod` 10000) +:+ "-"
               +:+ strftime_HMS dt;
         roomId := row_roomId row;
         timestamp := dt;
         measurementType := field_name f;
         value := get row f;
         qualityFlags := upper (field_name f) +:+ "_OUT_OF_RANGE";
         reason := rsn;
         severity := sev;
         severityText := severity_text sev;
         ackBy := None;
         ackTs := None;
         windowStart := dt - 10000000;
         windowEnd := dt |}.
Proof.
  unfold generate_incident_report, datetime_sub.
  change (timedelta_seconds 10) with 10000000.
  destruct (dt - 10000000 <? 0); [discriminate|].
  simpl. by intros [= <-].
Qed.


Ltac block_cases :=
  repeat match goal with
  | |- context [if ?b then _ else _] => destruct b eqn:?
  | |- context [generate_incident_report ?E ?row ?f ?sev ?rsn ?dt] =>
      let r := fresh "r" in
      let Hr := fresh "Hr" in
      destruct (generate_incident_report E row f sev rsn dt) as [r|] eqn:Hr;
      simpl
  end.

Lemma check_co2_block E row l :
  check_co2 E row = Return l → block_result E row Co2 l.
Proof.
  unfold check_co2, block_result. block_cases; intros [= <-];
    first [by left | right; by eexists _, _, _].
Qed.

Lemma check_humidity_block E row l :
  check_humidity E row = Return l → block_result E row Humidity l.
Proof.
  unfold check_humidity, block_result. block_cases; intros [= <-];
    first [by left | right; by eexists _, _, _].
Qed.

Lemma check_temperature_block E row l :
  check_temperature E row = Return l → block_result E row Temperature l.
Proof.
  unfold check_temperature, block_result. block_cases; intros [= <-];
    first [by left | right; by eexists _, _, _].
Qed.

Lemma check_pm2_5_block E row l :
  check_pm2_5 E row = Return l → block_result E row Pm2_5 l.
Proof.
  unfold check_pm2_5, block_result. block_cases; intros [= <-];
    first [by left | right; by eexists _, _, _].
Qed.

(** The four blocks of a row that was evaluated. *)
Lemma check_row_blocks E row l :
  check_row E row = Return l →
  ∃ a b c d,
    l = a ++ b ++ c ++ d
    ∧ check_co2 E row = Return a ∧ check_humidity E row = Return b
    ∧ check_temperature E row = Return c ∧ check_pm2_5 E row = Return d.
Proof.
  unfold check_row.
  destruct (check_co2 E row) as [a|]; [|discriminate].
  destruct (check_humidity E row) as [b|]; [|discriminate].
  destruct (check_temperature E row) as [c|]; [|discriminate].
  destruct (check_pm2_5 E row) as [d|]; [|discriminate].
  simpl. intros [= <-]. by exists a, b, c, d.
Qed.

Lemma block_types E row f l :
  block_result E row f l → measurementType <$> l `sublist_of` [field_name f].
Proof.
  intros [->|(sev & rsn & r & -> & Hr)].
  - apply sublist_nil_l.
  - apply generate_incident_report_Return in Hr as ->. reflexivity.
Qed.

(** X10: one row gives at most one report per measurement, in the order
    co2, humidity, temperature, pm2_5; so at most four reports. *)
Theorem check_row_one_report_per_field E row (l : list incident) :
  check_row E row = Return l →
  measurementType <$> l `sublist_of` ["co2"; "humidity"; "temperature"; "pm2_5"]
  ∧ (length l ≤ 4)%nat.
Proof.
  intros (a & b & c & d & -> & Ha & Hb & Hc & Hd)%check_row_blocks.
  assert (measurementType <$> (a ++ b ++ c ++ d)
          `sublist_of` ["co2"; "humidity"; "temperature"; "pm2_5"]) as Hsub.
  { rewrite !fmap_app.
    change ["co2"; "humidity"; "temperature"; "pm2_5"]
      with ([field_name Co2] ++ [field_name Humidity]
            ++ [field_name Temperature] ++ [field_name Pm2_5]).
    repeat apply sublist_app; apply (block_types E row);
      eauto using check_co2_block, check_humidity_block,
        check_temperature_block, check_pm2_5_block. }
  split; [exact Hsub|].
  apply sublist_length in Hsub. by rewrite length_fmap in Hsub.
Qed.

Lemma check_row_one_report_per_field_witness :
  ∃ l, check_row some_pylib stuffy = Return l
       ∧ measurementType <$> l
         `sublist_of` ["co2"; "humidity"; "temperature"; "pm2_5"]
       ∧ (length l ≤ 4)%nat.
Proof.
  eexists. split; [vm_compute; reflexivity|].
  apply (check_row_one_report_per_field some_pylib stuffy).
  vm_compute. reflexivity.
Defined.

Ltac report_facts :=
  repeat match goal with
  | H : generate_incident_report _ _ _ _ _ _ = Return _ |- _ =>
      apply generate_incident_report_Return in H; subst
  end;
  repeat (apply Forall_cons; split; [split|]); try apply Forall_nil;
  simpl; first [by auto 12 | by repeat split].

Lemma check_co2_reports E row l :
  check_co2 E row = Return l → Forall (λ i, justified i ∧ row_stamp E row i) l.
Proof.
  unfold check_co2. block_cases; intros [= <-]; unfold justified, row_stamp;
    report_facts.
Qed.

Lemma check_humidity_reports E row l :
  check_humidity E row = Return l → Forall (λ i, justified i ∧ row_stamp E row i) l.
Proof.
  unfold check_humidity. block_cases; intros [= <-]; unfold justified, row_stamp;
    report_facts.
Qed.

Lemma check_temperature_reports E row l :
  check_temperature E row = Return l →
  Forall (λ i, justified i ∧ row_stamp E row i) l.
Proof.
  unfold check_temperature. block_cases; intros [= <-];
    unfold justified, row_stamp; report_facts.
Qed.

Lemma check_pm2_5_reports E row l :
  check_pm2_5 E row = Return l → Forall (λ i, justified i ∧ row_stamp E row i) l.
Proof.
  unfold check_pm2_5. block_cases; intros [= <-]; unfold justified, row_stamp;
    report_facts.
Qed.

Lemma check_row_reports E row l :
  check_row E row = Return l → Forall (λ i, justified i ∧ row_stamp E row i) l.
Proof.
  intros (a & b & c & d & -> & Ha & Hb & Hc & Hd)%check_row_blocks.
  repeat apply Forall_app_2;
    eauto using check_co2_reports, check_humidity_reports,
      check_temperature_reports, check_pm2_5_reports.
Qed.

(** X11: every report is justified by the reading it carries.  A CO2 or
    PM2.5 report is critical (severity 2) exactly when the reading is above
    the critical limit and a warning (severity 1) when it is above the
    warning limit only; humidity and temperature reports are warnings for a
    reading below the low or above the high limit. *)
Theorem reports_are_justified E row (l : list incident) :
  check_row E row = Return l → Forall justified l.
Proof.
  intros Hrow%check_row_reports.
  eapply Forall_impl; [exact Hrow|]. by intros i [Hi _].
Qed.

Lemma reports_are_justified_witness :
  ∃ l, check_row some_pylib stuffy = Return l ∧ Forall justified l.
Proof.
  eexists. split; [vm_compute; reflexivity|].
  apply (reports_are_justified some_pylib stuffy). vm_compute. reflexivity.
Defined.

(** X12: all reports of one row carry the same identifier, room, timestamp
    and incident window.  The identifier is built from the row and its time
    of day only, so it does not tell the reports of a row apart; the
    window is the ten seconds that end at the timestamp of the row. *)
Theorem reports_of_a_row_share_id E row (l : list incident) :
  check_row E row = Return l →
  Forall (row_stamp E row) l
  ∧ ∀ i j, i ∈ l → j ∈ l →
      id i = id j ∧ windowStart i = windowStart j ∧ windowEnd i = windowEnd j.
Proof.
  intros Hrow%check_row_reports.
  assert (Forall (row_stamp E row) l) as Hstamp.
  { eapply Forall_impl; [exact Hrow|]. by intros i [_ Hi]. }
  split; [exact Hstamp|].
  rewrite Forall_forall in Hstamp. intros i j Hi Hj.
  destruct (Hstamp i Hi) as (Hid & _ & _ & Hend & Hstart & _).
  destruct (Hstamp j Hj) as (Hid' & _ & _ & Hend' & Hstart' & _).
  by rewrite Hid, Hid', Hend, Hend', Hstart, Hstart'.
Qed.

Lemma reports_of_a_row_share_id_witness :
  ∃ l, check_row some_pylib stuffy = Return l
       ∧ (4 = length l)%nat ∧ Forall (row_stamp some_pylib stuffy) l.
Proof.
  eexists. split; [vm_compute; reflexivity|]. split; [reflexivity|].
  refine (proj1 (reports_of_a_row_share_id some_pylib stuffy _ _)).
  vm_compute. reflexivity.
Defined.

Lemma limit_1000 : Prim2SF (float_of_int co2_warning_high)
                   = S754_finite false 8796093022208000 (-43).
Proof. reflexivity. Qed.

Lemma limit_1500 : Prim2SF (float_of_int co2_critical_high)
                   = S754_finite false 6597069766656000 (-42).
Proof. reflexivity. Qed.

Lemma limit_12 : Prim2SF (float_of_int pm2_5_warning_high)
                 = S754_finite false 6755399441055744 (-49).
Proof. reflexivity. Qed.

Lemma limit_35 : Prim2SF (float_of_int pm2_5_critical_high)
                 = S754_finite false 4925812092436480 (-47).
Proof. reflexivity. Qed.

(** X13: no false alarm.  For a row whose CO2 is at most 1000, humidity
    between 30 and 60, temperature between 20 and 24 and PM2.5 at most 12
    the loop body appends no report. *)
Theorem safe_row_is_quiet E row :
  (row_co2 row <=? float_of_int co2_warning_high)%float = true →
  (float_of_int humidity_warning_low <=? row_humidity row)%float = true →
  (row_humidity row <=? float_of_int humidity_warning_high)%float = true →
  (float_of_int temperature_warning_low <=? row_temperature row)%float = true →
  (row_temperature row <=? float_of_int temperature_warning_high)%float = true →
  (row_pm2_5 row <=? float_of_int pm2_5_warning_high)%float = true →
  check_row E row = Return [].
Proof.
  intros Hco2 Hh1 Hh2 Ht1 Ht2 Hpm.
  unfold check_row, check_co2, check_humidity, check_temperature, check_pm2_5,
    above, below.
  rewrite (FloatOrder.leb_not_above _ _ _ _ _ _ _ limit_1000 limit_1500) by done.
  rewrite (FloatOrder.leb_not_ltb _ _ Hco2).
  rewrite (FloatOrder.leb_not_ltb _ _ Hh1), (FloatOrder.leb_not_ltb _ _ Hh2).
  rewrite (FloatOrder.leb_not_ltb _ _ Ht1), (FloatOrder.leb_not_ltb _ _ Ht2).
  rewrite (FloatOrder.leb_not_above _ _ _ _ _ _ _ limit_12 limit_35) by done.
  rewrite (FloatOrder.leb_not_ltb _ _ Hpm).
  reflexivity.
Qed.

Lemma safe_row_is_quiet_witness : check_row some_pylib calm = Return [].
Proof. apply safe_row_is_quiet; reflexivity. Defined.

(** X14: a reading that is NaN is never reported.  Every comparison with
    NaN is false, so a row whose four readings are NaN passes as normal. *)
Theorem nan_row_is_quiet E row :
  PrimFloat.is_nan (row_co2 row) = true →
  PrimFloat.is_nan (row_humidity row) = true →
  PrimFloat.is_nan (row_temperature row) = true →
  PrimFloat.is_nan (row_pm2_5 row) = true →
  check_row E row = Return [].
Proof.
  intros H1%FloatNan.is_nan_eq H2%FloatNan.is_nan_eq
         H3%FloatNan.is_nan_eq H4%FloatNan.is_nan_eq.
  unfold check_row, check_co2, check_humidity, check_temperature, check_pm2_5,
    above, below.
  rewrite H1, H2, H3, H4.
  rewrite !FloatOrder.ltb_nan_l, !FloatOrder.ltb_nan_r. reflexivity.
Qed.

Lemma nan_row_is_quiet_witness :
  check_row some_pylib
    {| row_id := 3; row_roomId := "Lab-C-302"; row_timestamp := sec 5000;
       row_co2 := nan; row_humidity := nan; row_temperature := nan;
       row_pm2_5 := nan |}
  = Return [].
Proof. apply nan_row_is_quiet; reflexivity. Defined.

(** ** The identifier *)

Lemma strftime_HMS_day (dt k : Z) :
  strftime_HMS (dt + k * 86400000000) = strftime_HMS dt.
Proof.
  unfold strftime_HMS.
  replace (dt + k * 86400000000) with (dt + (k * 86400) * 1000000) by lia.
  rewrite Z.div_add by lia. by rewrite Z.mod_add by lia.
Qed.

(** X15: the identifier repeats.  Reports for the same row text at the same
    time of day on different days, and for hashes that differ by a
    multiple of 10000, get the same identifier, whatever field, severity
    and reason they report. *)
Theorem incident_id_repeats E E' row row' f f' sev sev' rsn rsn' dt (k j : Z)
    (r r' : incident) :
  hash_str E' row' = hash_str E row + j * 10000 →
  generate_incident_report E row f sev rsn dt = Return r →
  generate_incident_report E' row' f' sev' rsn' (dt + k * 86400000000) = Return r' →
  id r = id r'.
Proof.
  intros Hhash Hr%generate_incident_report_Return Hr'%generate_incident_report_Return.
  subst r r'. simpl.
  by rewrite strftime_HMS_day, Hhash, Z.mod_add by lia.
Qed.

Lemma incident_id_repeats_witness :
  ∃ r r',
    generate_incident_report some_pylib stuffy Co2 2 "a" (sec 5000) = Return r
    ∧ generate_incident_report some_pylib stuffy Pm2_5 1 "b"
        (sec 5000 + 3 * 86400000000) = Return r'
    ∧ id r = id r'.
Proof.
  eexists _, _. split; [vm_compute; reflexivity|].
  split; [vm_compute; reflexivity|].
  eapply (incident_id_repeats some_pylib some_pylib stuffy stuffy Co2 Pm2_5
            2 1 "a" "b" (sec 5000) 3 0); reflexivity.
Defined.

(** ** Reports near [datetime.min] *)

(** X17: [generate_incident_report] cannot place its ten-second window
    before [datetime.min].  Called with a [window_end_dt] less than ten
    seconds after [datetime.min] it raises [OverflowError] and builds no
    report, whatever the row, field, severity and reason. *)
Theorem generate_incident_report_early E row f sev rsn dt :
  dt < 10000000 →
  generate_incident_report E row f sev rsn dt = Raise OverflowError.
Proof.
  intros Hdt. unfold generate_incident_report, datetime_sub.
  change (timedelta_seconds 10) with 10000000.
  by destruct (Z.ltb_spec (dt - 10000000) 0); [|lia].
Qed.

Lemma generate_incident_report_early_witness :
  generate_incident_report some_pylib stuffy Co2 2 "a" (sec 9) = Raise OverflowError.
Proof. apply generate_incident_report_early. vm_compute. reflexivity. Defined.


(** ** The simulated readings *)

Lemma max_0_nonneg (x : float) : (0 <=? max_0 x)%float = true.
Proof.
  unfold max_0. destruct (0 <? x)%float eqn:Hx; [|reflexivity].
  by apply FloatOrder.ltb_leb.
Qed.

Lemma max_0_min_100_le (x : float) : (max_0 (min_100 x) <=? 100)%float = true.
Proof.
  unfold max_0, min_100. destruct (x <? 100)%float eqn:Hx.
  - destruct (0 <? x)%float; [by apply FloatOrder.ltb_leb | reflexivity].
  - reflexivity.
Qed.

Lemma BASE_READINGS_Some (room_id : string) (b : base) :
  BASE_READINGS room_id = Some b → room_id ∈ ROOM_IDS.
Proof.
  unfold BASE_READINGS, ROOM_IDS.
  repeat (destruct (decide _) as [->|_]; [intros _; set_solver|]).
  discriminate.
Qed.

(** X18: a simulated reading that is not the fifteenth of its series has
    a CO2 and a PM2.5 level that are not negative and a humidity between 0
    and 100, whatever the random samples are; it carries the counter as id
    and leaves the global counter one higher.  Only a room of
    [BASE_READINGS] gets a reading. *)
Theorem simulated_reading_in_range d now room_id counter (r : reading) (c' : Z) :
  simulate_sensor_reading d now room_id counter = Some (r, c') →
  counter `mod` 15 ≠ 0 →
  room_id ∈ ROOM_IDS
  ∧ row_id r = counter ∧ row_roomId r = room_id ∧ row_timestamp r = now
  ∧ c' = counter + 1
  ∧ (0 <=? row_co2 r)%float = true
  ∧ (0 <=? row_humidity r)%float = true
  ∧ (row_humidity r <=? 100)%float = true
  ∧ (0 <=? row_pm2_5 r)%float = true.
Proof.
  unfold simulate_sensor_reading. intros Hsim Hmod.
  destruct (BASE_READINGS room_id) as [b|] eqn:Hb; [|discriminate].
  simpl in Hsim. destruct (Z.eqb_spec (counter `mod` 15) 0) as [|_]; [done|].
  injection Hsim as <- <-. simpl.
  split; [by eapply BASE_READINGS_Some|].
  repeat split; auto using max_0_nonneg, max_0_min_100_le.
Qed.

Lemma simulated_reading_in_range_witness :
  "Lab-A-205" ∈ ROOM_IDS
  ∧ (row_humidity
       {| row_id := 7; row_roomId := "Lab-A-205"; row_timestamp := sec 5000;
          row_co2 := 600; row_humidity := 45; row_temperature := 21.5;
          row_pm2_5 := 7 |} <=? 100)%float = true.
Proof.
  destruct (simulated_reading_in_range no_draws (sec 5000) "Lab-A-205" 7
              {| row_id := 7; row_roomId := "Lab-A-205"; row_timestamp := sec 5000;
                 row_co2 := 600; row_humidity := 45; row_temperature := 21.5;
                 row_pm2_5 := 7 |} 8)
    as (Hroom & _ & _ & _ & _ & _ & _ & Hhum & _).
  - vm_compute. reflexivity.
  - vm_compute. discriminate.
  - split; assumption.
Defined.





(** ** The monitoring loop *)

Local Arguments evaluate_sensor_data_for_anomalies : simpl never.

(** What one turn of the loop produces, for counters that run together. *)
Lemma loop_iteration_Some E d now st (r : reading) (reps : list incident) st' :
  loop_iteration E d now st = Some (r, reps, st') →
  reading_count st = current_room_index st + 1 →
  row_id r = reading_count st
  ∧ ROOM_IDS !! Z.to_nat (current_room_index st `mod` 3) = Some (row_roomId r)
  ∧ row_timestamp r = now
  ∧ st' = {| current_room_index := current_room_index st + 1;
             reading_count := reading_count st + 1 |}
  ∧ evaluate_sensor_data_for_anomalies E [r] = Return reps
  ∧ (row_id r `mod` 15 = 0 → row_roomId r = "Lab-C-302")
  ∧ (row_roomId r = "Lab-B-101" →
     row_co2 r = max_0 (float_of_int 750 + gauss_co2 d)
     ∧ row_pm2_5 r = max_0 (9.0 + gauss_pm2_5 d)).
Proof.
  intros Hit Hcount. unfold loop_iteration in Hit.
  change (Z.of_nat (length ROOM_IDS)) with 3 in Hit.
  pose proof (Z.mod_pos_bound (current_room_index st) 3 eq_refl) as Hbound.
  assert (current_room_index st `mod` 3 = 0 ∨ current_room_index st `mod` 3 = 1
          ∨ current_room_index st `mod` 3 = 2) as Hroom by lia.
  destruct (Z.eqb_spec (reading_count st `mod` 15) 0) as [H15|H15].
  - (* a fifteenth reading: the room index is 2 *)
    assert (current_room_index st `mod` 3 = 2) as H3.
    { rewrite Hcount in H15. clear -H15. Z.div_mod_to_equations. lia. }
    rewrite H3 in Hit |- *. simpl in Hit.
    unfold simulate_sensor_reading in Hit. simpl in Hit.
    rewrite H15 in Hit. simpl in Hit.
    destruct (evaluate_sensor_data_for_anomalies E _) as [l|] eqn:Hev;
      [|discriminate].
    injection Hit as <- <- <-. simpl.
    repeat split; try done.
  - destruct Hroom as [H3 | [H3 | H3]]; rewrite H3 in Hit |- *; simpl in Hit;
      unfold simulate_sensor_reading in Hit; simpl in Hit;
      (destruct (Z.eqb_spec (reading_count st `mod` 15) 0) as [|_]; [done|]);
      (destruct (evaluate_sensor_data_for_anomalies E _) as [l|] eqn:Hev;
         [|discriminate]);
      injection Hit as <- <- <-; simpl; repeat split; done.
Qed.

Lemma run_loop_from E (inputs : list (draws * Z)) st
    (out : list (reading * list incident)) st' :
  run_loop E inputs st = Some (out, st') →
  reading_count st = current_room_index st + 1 →
  current_room_index st' = current_room_index st + Z.of_nat (length inputs)
  ∧ reading_count st' = current_room_index st' + 1
  ∧ length out = length inputs
  ∧ ∀ (k : nat) r reps d now,
      out !! k = Some (r, reps) → inputs !! k = Some (d, now) →
      row_id r = reading_count st + Z.of_nat k
      ∧ ROOM_IDS !! Z.to_nat ((current_room_index st + Z.of_nat k) `mod` 3)
        = Some (row_roomId r)
      ∧ row_timestamp r = now
      ∧ evaluate_sensor_data_for_anomalies E [r] = Return reps
      ∧ (row_id r `mod` 15 = 0 → row_roomId r = "Lab-C-302")
      ∧ (row_roomId r = "Lab-B-101" →
         row_co2 r = max_0 (float_of_int 750 + gauss_co2 d)
         ∧ row_pm2_5 r = max_0 (9.0 + gauss_pm2_5 d)).
Proof.
  revert st out st'. induction inputs as [|[d now] inputs IH];
    intros st out st' Hrun Hcount; simpl in Hrun.
  - injection Hrun as <- <-.
    split; [simpl; lia|]. split; [assumption|]. split; [reflexivity|].
    intros k r reps d now Hk. by rewrite lookup_nil in Hk.
  - destruct (loop_iteration E d now st) as [[[r reps] st1]|] eqn:Hit;
      [|discriminate]. simpl in Hrun.
    destruct (run_loop E inputs st1) as [[out1 st2]|] eqn:Hrest; [|discriminate].
    simpl in Hrun. injection Hrun as <- <-.
    destruct (loop_iteration_Some _ _ _ _ _ _ _ Hit Hcount)
      as (Hid & Hroom & Hnow & -> & Hev & H15 & HB).
    destruct (IH _ _ _ Hrest) as (Hidx & Hcnt & Hlen & Hall); [simpl; lia|].
    simpl in Hidx, Hall. split; [|split; [|split]].
    + simpl. lia.
    + assumption.
    + simpl. by rewrite Hlen.
    + intros [|k] r' reps' d' now' Hout Hin; simpl in Hout, Hin.
      * injection Hout as <- <-. injection Hin as <- <-.
        rewrite !Z.add_0_r. repeat split; try assumption; by apply HB.
      * destruct (Hall k r' reps' d' now' Hout Hin)
          as (Hid' & Hroom' & Hnow' & Hev' & H15' & HB').
        replace (current_room_index st + Z.of_nat (S k))
          with (current_room_index st + 1 + Z.of_nat k) by lia.
        repeat split; try assumption; [lia | by apply HB' ..].
Qed.

(** X20: the loop visits the three rooms in turn and numbers its readings
    from 1: reading number k+1 is for room number k mod 3.  Every fifteenth
    reading therefore belongs to Lab-C-302, and the CO2 and PM2.5 spike
    that the simulator keeps for Lab-B-101 is never produced by the loop:
    a Lab-B-101 reading always carries the clamped base levels. *)
Theorem loop_rooms_cycle E (inputs : list (draws * Z))
    (out : list (reading * list incident)) st' :
  run_loop E inputs loop_start = Some (out, st') →
  current_room_index st' = Z.of_nat (length inputs)
  ∧ reading_count st' = Z.of_nat (length inputs) + 1
  ∧ length out = length inputs
  ∧ ∀ (k : nat) r reps d now,
      out !! k = Some (r, reps) → inputs !! k = Some (d, now) →
      row_id r = Z.of_nat k + 1
      ∧ ROOM_IDS !! Z.to_nat (Z.of_nat k `mod` 3) = Some (row_roomId r)
      ∧ row_timestamp r = now
      ∧ evaluate_sensor_data_for_anomalies E [r] = Return reps
      ∧ (row_id r `mod` 15 = 0 → row_roomId r = "Lab-C-302")
      ∧ (row_roomId r = "Lab-B-101" →
         row_co2 r = max_0 (float_of_int 750 + gauss_co2 d)
         ∧ row_pm2_5 r = max_0 (9.0 + gauss_pm2_5 d)).
Proof.
  intros Hrun.
  destruct (run_loop_from E inputs loop_start out st' Hrun eq_refl)
    as (Hidx & Hcnt & Hlen & Hall).
  simpl in Hidx. split; [assumption|]. split; [lia|]. split; [assumption|].
  intros k r reps d now Hout Hin.
  destruct (Hall k r reps d now Hout Hin) as (Hid & Hroom & Hrest).
  simpl in Hid, Hroom. split; [lia|]. split; assumption.
Qed.

Lemma loop_rooms_cycle_witness :
  ∃ out st',
    run_loop some_pylib
      [(no_draws, sec 5000); (no_draws, sec 5010); (no_draws, sec 5020)]
      loop_start = Some (out, st')
    ∧ current_room_index st' = 3 ∧ length out = 3%nat.
Proof.
  eexists _, _. split; [vm_compute; reflexivity|].
  destruct (loop_rooms_cycle some_pylib
              [(no_draws, sec 5000); (no_draws, sec 5010); (no_draws, sec 5020)]
              _ _ eq_refl) as (Hidx & _ & Hlen & _).
  split; assumption.
Defined.

(** X21: the loop always finds its room.  Whatever the counters are, the
    index [current_room_index % len(ROOM_IDS)] is inside [ROOM_IDS] and the
    room it names is a key of [BASE_READINGS]: selecting the room raises no
    [IndexError] and simulating its reading no [KeyError]. *)
Theorem loop_room_is_known d now st :
  ∃ room_id r,
    ROOM_IDS !! Z.to_nat (current_room_index st `mod` Z.of_nat (length ROOM_IDS))
    = Some room_id
    ∧ simulate_sensor_reading d now room_id (reading_count st)
      = Some (r, reading_count st + 1)
    ∧ row_roomId r = room_id ∧ row_id r = reading_count st.
Proof.
  change (Z.of_nat (length ROOM_IDS)) with 3.
  pose proof (Z.mod_pos_bound (current_room_index st) 3 eq_refl) as Hbound.
  assert (current_room_index st `mod` 3 = 0 ∨ current_room_index st `mod` 3 = 1
          ∨ current_room_index st `mod` 3 = 2) as Hroom by lia.
  destruct Hroom as [H3 | [H3 | H3]]; rewrite H3; simpl;
    unfold simulate_sensor_reading; simpl;
    destruct (_ =? 0); eexists _, _; repeat split; reflexivity.
Qed.

End MonitorFacts.
